(** * tds-eval: task-evaluation orchestration and check execution

    A shallow embedding of [main.py] (the FastAPI orchestrator with its
    in-memory registry [DB]) and of [selenium_runner.py] (the check
    runner that drives one browser session), followed by the properties
    of the design document that the code is checked against.

    Conventions of the embedding
    - Python [str] is [string]; descriptions and identifiers of this
      repository are ASCII.
    - Python [int] is [Z]; [datetime.now()] is a reading [now : Z] of the
      clock handed to the function that takes it.
    - A Python [dict] used as a map ([DB], [TEST_CASES]) is a [gmap].
    - Code that may raise returns a sum; code that drives the browser
      threads the session state and may raise.
    - What lies outside the repository (Selenium, httpx, json, pydantic,
      the [repr] of the interpreter) is a parameter of the Section that
      uses it. *)

From Stdlib Require Import ZArith String Ascii DecimalString DecimalNat Lia.
From stdpp Require Import base option list gmap strings.

Local Open Scope string_scope.
Local Open Scope Z_scope.

(** ** Python string methods used by the runner *)

(** [s.startswith(p)] *)
Fixpoint startswith (p s : string) : bool :=
  match p, s with
  | EmptyString, _ => true
  | String a p', String b s' => if Ascii.eqb a b then startswith p' s' else false
  | String _ _, EmptyString => false
  end.

(** [sub in s] *)
Fixpoint contains (sub s : string) : bool :=
  startswith sub s ||
  match s with
  | EmptyString => false
  | String _ s' => contains sub s'
  end.

(** [s.split(c)] for a separator of one character: never empty, the
    pieces between the occurrences of [c], empty pieces kept. *)
Fixpoint split (c : ascii) (s : string) : list string :=
  match s with
  | EmptyString => [EmptyString]
  | String a s' =>
      if Ascii.eqb a c then EmptyString :: split c s'
      else match split c s' with
           | h :: t => String a h :: t
           | [] => [String a EmptyString]
           end
  end.

(** [s.replace(old, "")] for a non-empty [old]: the occurrences of [old]
    are removed from left to right, without overlap. [skip] counts the
    characters of the occurrence under removal that are still to drop. *)
Fixpoint remove_from (old s : string) (skip : nat) : string :=
  match s with
  | EmptyString => EmptyString
  | String a s' =>
      match skip with
      | S k => remove_from old s' k
      | O => if startswith old s
             then remove_from old s' (Nat.pred (String.length old))
             else String a (remove_from old s' O)
      end
  end.

Definition replace_with_empty (old s : string) : string := remove_from old s O.

(** [s.lstrip(chars)], [s.rstrip(chars)], [s.strip(chars)], with the set
    of characters given as a predicate. *)
Fixpoint lstrip (p : ascii -> bool) (s : string) : string :=
  match s with
  | EmptyString => EmptyString
  | String a s' => if p a then lstrip p s' else s
  end.

Fixpoint rstrip (p : ascii -> bool) (s : string) : string :=
  match s with
  | EmptyString => EmptyString
  | String a s' =>
      match rstrip p s' with
      | EmptyString => if p a then EmptyString else String a EmptyString
      | r => String a r
      end
  end.

Definition strip (p : ascii -> bool) (s : string) : string := rstrip p (lstrip p s).

Definition one_of (chars : string) (a : ascii) : bool :=
  existsb (Ascii.eqb a) (list_ascii_of_string chars).

(** ** Python [int(s)] on a [str] *)

(** The blanks of [str.strip()]. *)
Definition is_space (a : ascii) : bool :=
  let n := N_of_ascii a in
  ((9 <=? n) && (n <=? 13) || (28 <=? n) && (n <=? 32))%N.

(** The blanks that [int] skips at both ends of an ASCII string: the
    characters 9 to 13 and the space. *)
Definition is_int_space (a : ascii) : bool :=
  let n := N_of_ascii a in
  ((9 <=? n) && (n <=? 13) || (n =? 32))%N.

Definition digit_of (a : ascii) : option Z :=
  let n := N_of_ascii a in
  if ((48 <=? n) && (n <=? 57))%N then Some (Z.of_N n - 48) else None.

(** The default of [sys.get_int_max_str_digits()]. *)
Definition int_max_str_digits : Z := 4300.

(** How [int(s)] ends: with a number, with the [ValueError] that says
    ["invalid literal"], or with the [ValueError] raised for a numeral of
    more digits than the limit. *)
Inductive int_result :=
| IntValue (n : Z)
| InvalidLiteral
| ExceedsLimit (digits : Z).

(** The run of digits and single underscores at the head of [s]: its
    value in base ten, the number of its digits and what follows it.
    [None] when two underscores meet or an underscore ends the run. *)
Fixpoint int_scan (s : string) (acc digits : Z) (after_underscore : bool)
  : option (Z * Z * string) :=
  match s with
  | EmptyString => if after_underscore then None else Some (acc, digits, EmptyString)
  | String a s' =>
      match digit_of a with
      | Some d => int_scan s' (10 * acc + d) (digits + 1) false
      | None =>
          if Ascii.eqb a "_"
          then (if after_underscore then None else int_scan s' acc digits true)
          else (if after_underscore then None else Some (acc, digits, s))
      end
  end.

(** The sign that may come before the digits. *)
Definition int_sign (s : string) : bool * string :=
  match s with
  | String "-" s' => (true, s')
  | String "+" s' => (false, s')
  | _ => (false, s)
  end.

(** What follows the sign, in the order of the interpreter (CPython
    3.11): an underscore may not come first, the run of digits is scanned, the number
    of digits is held against the limit, and only then are an empty run
    and characters other than blanks after the run refused. *)
Definition int_unsigned (negative : bool) (s : string) : int_result :=
  match s with
  | String "_" _ => InvalidLiteral
  | _ =>
      match int_scan s 0 0 false with
      | None => InvalidLiteral
      | Some (n, digits, rest) =>
          if int_max_str_digits <? digits then ExceedsLimit digits
          else if digits =? 0 then InvalidLiteral
          else match lstrip is_int_space rest with
               | EmptyString => IntValue (if negative then - n else n)
               | String _ _ => InvalidLiteral
               end
      end
  end.

(** [int(s)]: the blanks at the head are skipped, then the sign. *)
Definition py_int (s : string) : int_result :=
  let '(negative, s') := int_sign (lstrip is_int_space s) in
  int_unsigned negative s'.

(** The number of occurrences of a character. *)
Definition count_char (c : ascii) (s : string) : nat :=
  length (List.filter (Ascii.eqb c) (list_ascii_of_string s)).

(** [str(n)] for an [int], as used by f-strings. *)
Definition str_of_int (n : Z) : string := NilZero.string_of_int (Z.to_int n).

(** [str(n)] for a natural number. *)
Definition str_of_nat (n : nat) : string := NilZero.string_of_uint (Nat.to_uint n).


(** ** selenium_runner.py: the check runner *)

(** The dictionaries [{"check", "passed", "details"}] the runner emits,
    which are also the [CheckResult] model of [main.py]. *)
Record CheckResult := mkCheckResult {
  check : string;
  passed : bool;
  details : string
}.

(** The exceptions the body of the runner can meet: the one its own
    indexing raises, the two of [int], and any exception of Selenium, of
    the driver manager or of the browser, known by its [str(e)]. *)
Inductive exn :=
| IndexError
| ValueError (literal : string)
| ValueErrorLimit (digits : Z)
| ExternalError (msg : string).

(** Code acting on the browser session: it may raise and it changes the
    state [D] of the session either way. *)
Definition M (D A : Type) : Type := D -> (exn + A) * D.

#[global] Instance M_ret {D} : MRet (M D) := fun A x d => (inr x, d).
#[global] Instance M_bind {D} : MBind (M D) := fun A B k m d =>
  match m d with
  | (inl e, d') => (inl e, d')
  | (inr x, d') => k x d'
  end.

Definition raise {D A} (e : exn) : M D A := fun d => (inl e, d).

(** [l[i]] *)
Definition item {D} (l : list string) (i : nat) : M D string :=
  match l !! i with
  | Some x => mret x
  | None => raise IndexError
  end.

Inductive By := ID | CSS_SELECTOR.

(** What the runner uses of Selenium. [E] is a [WebElement]. The waits are
    [WebDriverWait(driver, timeout).until(condition)], one field for each
    expected condition the runner names and [until] for its lambda. *)
Record WebDriver (D E : Type) := {
  Chrome : exn + D;
  set_page_load_timeout : Z -> M D unit;
  get : string -> M D unit;
  title : M D string;
  find_element : By -> string -> M D E;
  find_elements : By -> string -> M D (list E);
  send_keys : E -> string -> M D unit;
  click : E -> M D unit;
  clear : E -> M D unit;
  text : E -> M D string;
  until_visibility_of_element_located : Z -> By -> string -> M D E;
  until_presence_of_element_located : Z -> By -> string -> M D E;
  until_text_to_be_present_in_element : Z -> By -> string -> string -> M D bool;
  until : Z -> M D bool -> M D bool
}.
Arguments Chrome {D E}.
Arguments set_page_load_timeout {D E}.
Arguments get {D E}.
Arguments title {D E}.
Arguments find_element {D E}.
Arguments find_elements {D E}.
Arguments send_keys {D E}.
Arguments click {D E}.
Arguments clear {D E}.
Arguments text {D E}.
Arguments until_visibility_of_element_located {D E}.
Arguments until_presence_of_element_located {D E}.
Arguments until_text_to_be_present_in_element {D E}.
Arguments until {D E}.

(** The branch of the [if]/[elif] chain of the loop body that a
    description takes, in the order of the chain. *)
Inductive check_kind :=
| PageTitleIs
| PageContainsElement
| TextContentOf
| TableHasAtLeast
| AfterEnteringOctocat
| WhenFetchingOctocat
| WhenFetchingMissingUser
| UnknownCheckType.

Definition classify (check_str : string) : check_kind :=
  if startswith "Page title is" check_str then PageTitleIs
  else if startswith "Page contains an element with id" check_str then PageContainsElement
  else if startswith "The text content of" check_str then TextContentOf
  else if contains "Table has at least" check_str then TableHasAtLeast
  else if contains "After entering 'octocat'" check_str then AfterEnteringOctocat
  else if contains "When fetching user 'octocat'" check_str then WhenFetchingOctocat
  else if contains "When fetching a user that does not exist" check_str
       then WhenFetchingMissingUser
  else UnknownCheckType.

Definition quote : ascii := "'"%char.
Definition dquote : ascii := "034"%char.
Definition hash (a : ascii) : bool := Ascii.eqb a "#".
Definition quotes (a : ascii) : bool := Ascii.eqb a quote || Ascii.eqb a dquote.

Section Runner.
Context {D E : Type}.
Variable driver : WebDriver D E.
(** What the message of [ValueError] shows of the literal: its [repr],
    which the interpreter cuts at 200 characters. *)
Variable py_repr : string -> string.

(** [str(e)] *)
Definition str (e : exn) : string :=
  match e with
  | IndexError => "list index out of range"
  | ValueError lit => "invalid literal for int() with base 10: " +:+ py_repr lit
  | ValueErrorLimit digits =>
      "Exceeds the limit (" +:+ str_of_int int_max_str_digits
      +:+ " digits) for integer string conversion: value has " +:+ str_of_int digits
      +:+ " digits; use sys.set_int_max_str_digits() to increase the limit"
  | ExternalError msg => msg
  end.

(** The branches, each returning [(passed, details)] as they stand when
    the branch ends without raising. *)
Definition check_title (check_str : string) : M D (bool * string) :=
  let expected_title := strip quotes (replace_with_empty "Page title is " check_str) in
  actual_title ← title driver;
  if String.eqb actual_title expected_title
  then mret (true, "Page title is correctly '" +:+ expected_title +:+ "'.")
  else mret (false, "Expected title '" +:+ expected_title +:+ "', but got '"
                     +:+ actual_title +:+ "'.").

Definition check_element (check_str : string) : M D (bool * string) :=
  el_id ← (if contains "'" check_str then item (split quote check_str) 1
           else item (split dquote check_str) 1);
  let element_id := lstrip hash el_id in
  _ ← until_visibility_of_element_located driver 5 ID element_id;
  mret (true, "Element with id '" +:+ el_id +:+ "' is visible.").

Definition check_text (check_str : string) : M D (bool * string) :=
  let parts := split quote check_str in
  p1 ← item parts 1;
  let el_id := lstrip hash p1 in
  expected_text ← item parts 3;
  element ← until_presence_of_element_located driver 5 ID el_id;
  actual_text ← text driver element;
  if String.eqb actual_text expected_text
  then mret (true, "Element '" +:+ el_id +:+ "' has correct text: '"
                    +:+ expected_text +:+ "'.")
  else mret (false, "Expected text '" +:+ expected_text +:+ "', but got '"
                     +:+ actual_text +:+ "'.").

Definition check_table (check_str : string) : M D (bool * string) :=
  word ← item (split " " check_str) 4;
  count ← (match py_int word with
           | IntValue n => mret n
           | InvalidLiteral => raise (ValueError word)
           | ExceedsLimit digits => raise (ValueErrorLimit digits)
           end);
  found ← find_elements driver CSS_SELECTOR "#sales-table tbody tr";
  let rows := Z.of_nat (length found) in
  if count <=? rows
  then mret (true, "Table has " +:+ str_of_int rows
                    +:+ " data rows, meeting the requirement.")
  else mret (false, "Expected at least " +:+ str_of_int count
                     +:+ " rows, but found " +:+ str_of_int rows +:+ ".").

Definition check_octocat : M D (bool * string) :=
  input ← find_element driver ID "username-input";
  send_keys driver input "octocat";;
  button ← find_element driver ID "fetch-btn";
  click driver button;;
  _ ← until_text_to_be_present_in_element driver 10 ID "creation-date" "2011-01-25";
  mret (true, "GitHub user fetch for 'octocat' was successful.").

Definition check_loading : M D (bool * string) :=
  input ← find_element driver ID "username-input";
  clear driver input;;
  input ← find_element driver ID "username-input";
  send_keys driver input "octocat";;
  button ← find_element driver ID "fetch-btn";
  click driver button;;
  _ ← until_text_to_be_present_in_element driver 2 ID "api-status" "Loading...";
  _ ← until driver 10
        (status ← find_element driver ID "api-status";
         t ← text driver status;
         mret (String.eqb t EmptyString));
  mret (true, "#api-status shows 'Loading...' then becomes empty.").

Definition check_missing_user : M D (bool * string) :=
  input ← find_element driver ID "username-input";
  clear driver input;;
  input ← find_element driver ID "username-input";
  send_keys driver input "nonexistentuser123456789";;
  button ← find_element driver ID "fetch-btn";
  click driver button;;
  _ ← until_text_to_be_present_in_element driver 10 ID "api-status" "User not found";
  mret (true, "#api-status displays 'User not found' for non-existent user.").

(** The [try] block of the loop body. *)
Definition check_body (check_str : string) : M D (bool * string) :=
  match classify check_str with
  | PageTitleIs => check_title check_str
  | PageContainsElement => check_element check_str
  | TextContentOf => check_text check_str
  | TableHasAtLeast => check_table check_str
  | AfterEnteringOctocat => check_octocat
  | WhenFetchingOctocat => check_loading
  | WhenFetchingMissingUser => check_missing_user
  | UnknownCheckType => mret (false, "Unknown check type: " +:+ check_str)
  end.

(** One turn of the loop: the body under its [except Exception], and
    the dictionary appended to [results]. [passed] is assigned last in
    every branch, so it is still [False] when a branch raises. *)
Definition run_check (check_str : string) (d : D) : CheckResult * D :=
  match check_body check_str d with
  | (inr (p, det), d') => (mkCheckResult check_str p det, d')
  | (inl e, d') => (mkCheckResult check_str false ("Check failed: " +:+ str e), d')
  end.

(** [for check_str in checks: ...] *)
Fixpoint run_each (checks : list string) (d : D) : list CheckResult * D :=
  match checks with
  | [] => ([], d)
  | check_str :: rest =>
      let (r, d1) := run_check check_str d in
      let (rs, d2) := run_each rest d1 in
      (r :: rs, d2)
  end.

(** The outer [except Exception]. *)
Definition all_failed (detail : string) (checks : list string) : list CheckResult :=
  (fun c => mkCheckResult c false detail) <$> checks.

(** The browser is started, the page loaded (the pause that follows
    does not act on the session), and the checks run in order on the one
    session. [driver.quit()] in the [finally] block runs on every path
    and its own failure is swallowed; the value returned does not
    depend on it. *)
Definition open_session (pages_url : string) : exn + D :=
  match Chrome driver with
  | inl e => inl e
  | inr d0 =>
      match (set_page_load_timeout driver 15;; get driver pages_url) d0 with
      | (inl e, _) => inl e
      | (inr _, d1) => inr d1
      end
  end.

Definition run_selenium_checks (pages_url : string) (checks : list string)
  : list CheckResult :=
  match open_session pages_url with
  | inl e => all_failed ("Selenium error: " +:+ str e) checks
  | inr d => fst (run_each checks d)
  end.
End Runner.

(** ** main.py: models, fixtures and registry *)

Record Attachment := mkAttachment {
  filename : string;
  content : string
}.

Module TaskRequest.
Record t := mk {
  email : string;
  secret : string;
  task : string;
  round : Z;
  nonce : string;
  brief : string;
  checks : list string;
  evaluation_url : string;
  attachments : list Attachment
}.
End TaskRequest.

Module StudentSubmission.
Record t := mk {
  email : string;
  task : string;
  round : Z;
  nonce : string;
  repo_url : string;
  commit_sha : string;
  pages_url : string
}.
End StudentSubmission.

(** [status] defaults to ["pending"], the other fields to [None] and
    to the empty list. *)
Record EvaluationResult := mkEvaluationResult {
  status : string;
  submitted_at : option Z;
  submission_data : option StudentSubmission.t;
  evaluation_completed_at : option Z;
  check_results : list CheckResult
}.

Definition EvaluationResult_default : EvaluationResult :=
  mkEvaluationResult "pending" None None None [].

(** One value of [DB]: the dictionary [start_test] stores. *)
Record TaskEntry := mkTaskEntry {
  request : TaskRequest.t;
  sent_at : Z;
  student_response_code : option Z;
  student_response_body : option string;
  evaluation : EvaluationResult
}.

Definition set_status (s : string) (ev : EvaluationResult) : EvaluationResult :=
  mkEvaluationResult s (submitted_at ev) (submission_data ev)
    (evaluation_completed_at ev) (check_results ev).

Definition set_evaluation (ev : EvaluationResult) (entry : TaskEntry) : TaskEntry :=
  mkTaskEntry (request entry) (sent_at entry) (student_response_code entry)
    (student_response_body entry) ev.

Definition set_response (code : Z) (body : string) (entry : TaskEntry) : TaskEntry :=
  mkTaskEntry (request entry) (sent_at entry) (Some code) (Some body) (evaluation entry).

(** One round of a fixture of [TEST_CASES]. *)
Record TestCase := mkTestCase {
  tc_task : string;
  tc_nonce : string;
  tc_brief : string;
  tc_checks : list string;
  tc_attachments : list Attachment
}.

Definition sales_csv : Attachment :=
  mkAttachment "sales.csv"
    "data:text/csv;base64,cHJvZHVjdCxzYWxlcwpBcHAyMCwxNTAuNTAKQmFuYW5hLDIwMC4yNQpDaGVycnksMzAw".

Definition TEST_CASES : gmap string (gmap Z TestCase) :=
  {[ "sales-report" :=
       {[ 1 := mkTestCase "sales-report-a8b3d" "nonce-1a2b-3c4d"
                 "Create a single-page site that processes an attached CSV file named 'sales.csv'. Calculate the sum of the 'sales' column and display the total inside an HTML element with the id '#total-sales'. The page title must be 'Sales Summary'."
                 [ "Page title is 'Sales Summary'";
                   "Page contains an element with id '#total-sales'";
                   "The text content of '#total-sales' is '650.75'" ]
                 [ sales_csv ];
          2 := mkTestCase "sales-report-a8b3d" "nonce-5e6f-7g8h"
                 "Update the sales report. Add a table with the id '#sales-table' that displays each product and its corresponding sale amount from 'sales.csv'. The table should have a header row (Product, Sales). The '#total-sales' element must remain correct."
                 [ "Page contains a table with id '#sales-table'";
                   "Table has at least 3 data rows";
                   "The text content of '#total-sales' remains '650.75'" ]
                 [ sales_csv ] ]};
     "github-user-info" :=
       {[ 1 := mkTestCase "github-user-info-c7e4f" "nonce-i9j0-k1l2"
                 "Create a page with an input field ('#username-input') and a button ('#fetch-btn'). When the button is clicked, fetch user data from 'https://api.github.com/users/{username}' and display the 'created_at' date in an element with id '#creation-date'."
                 [ "Page has an input with id '#username-input' and a button with id '#fetch-btn'";
                   "After entering 'octocat' and clicking the button, '#creation-date' contains '2011-01-25'" ]
                 [];
          2 := mkTestCase "github-user-info-c7e4f" "nonce-m3n4-o5p6"
                 "Update the GitHub user page. Add a status element with id '#api-status'. It should display 'Loading...' during the API fetch. If the fetch is successful, it should be empty. If the fetch fails (e.g., for a non-existent user), it should display 'User not found'."
                 [ "When fetching user 'octocat', '#api-status' shows 'Loading...' and then becomes empty.";
                   "When fetching a user that does not exist like 'nonexistentuser123456789', '#api-status' displays 'User not found'." ]
                 [] ]} ]}.

(** [SETTINGS]; the start-up hook refuses to run without the endpoint and
    the secret, so both are strings by the time a request is served. *)
Record Settings := mkSettings {
  EVALUATION_URL : string;
  STUDENT_API_ENDPOINT : string;
  SHARED_SECRET : string
}.

(** How a request handler ends: it returns a body, it raises an
    [HTTPException] that the framework turns into a response with that
    status code, or another exception leaves it. *)
Inductive reply (A : Type) :=
| Return (body : A)
| HTTPException (status_code : Z) (detail : string)
| Unhandled (what : string).
Arguments Return {A}.
Arguments HTTPException {A}.
Arguments Unhandled {A}.

(** How [await client.post(...)] ends: with a response, with an
    [httpx.RequestError] (the class of every transport failure), or with
    an exception of another class. *)
Inductive post_outcome :=
| Response (status_code : Z) (text : string)
| RequestError (msg : string)
| OtherError (what : string).

(** [background_tasks.add_task(run_evaluation_checks, ...)] *)
Record BackgroundTask := mkBackgroundTask {
  bt_pages_url : string;
  bt_checks : list string;
  bt_task_id : string
}.

(** How the isolated runner ends, seen from [run_evaluation_checks]:
    writing the hand-off file or starting the process raised, or the
    process ran to its end. *)
Inductive subprocess_outcome :=
| SpawnRaised (e : string)
| CompletedProcess (returncode : Z) (stdout stderr : string).

#[warnings="-register-all"]
Inductive json :=
| JNull
| JBool (b : bool)
| JNumber (literal : string)
| JString (s : string)
| JArray (items : list json)
| JObject (members : list (string * json)).

(** ** main.py: the evaluation task and the endpoints *)

Section Evaluation.
(** [json.loads]; [None] is [json.JSONDecodeError]. *)
Variable json_loads : string -> option json.
(** The [CheckResult] built from the keys of [item]: the model, or the
    [str] of the [TypeError] (an [item] that is not a mapping) or of the
    validation error. *)
Variable CheckResult_of : json -> string + CheckResult.
(** The [str] of the [TypeError] raised by iterating over a value that
    is not iterable. *)
Variable not_iterable : json -> string.

(** [for item in value]: a list gives its items, a dictionary its
    keys, a string its characters. *)
Definition iterate (value : json) : string + list json :=
  match value with
  | JArray items => inr items
  | JObject members => inr (JString <$> members.*1)
  | JString s => inr ((fun a => JString (String a EmptyString)) <$> list_ascii_of_string s)
  | _ => inl (not_iterable value)
  end.

(** The items are converted from left to right; the first failure
    leaves the comprehension. *)
Fixpoint convert_all (items : list json) : string + list CheckResult :=
  match items with
  | [] => inr []
  | item :: rest =>
      match CheckResult_of item with
      | inl e => inl e
      | inr r =>
          match convert_all rest with
          | inl e => inl e
          | inr rs => inr (r :: rs)
          end
      end
  end.

(** The comprehension that builds a [CheckResult] from each [item] of
    the decoded output. *)
Definition parse_results (value : json) : string + list CheckResult :=
  match iterate value with
  | inl e => inl e
  | inr items => convert_all items
  end.

(** The value of [results] when the database is updated. *)
Definition evaluation_results (pages_url : string) (checks : list string)
    (task_id : string) (process : subprocess_outcome) : list CheckResult :=
  let major e :=
    all_failed ("Major Selenium failure for task " +:+ task_id +:+ " at URL "
                +:+ pages_url +:+ ": " +:+ e) checks in
  match process with
  | SpawnRaised e => major e
  | CompletedProcess returncode stdout stderr =>
      if returncode =? 0 then
        match json_loads stdout with
        | None => all_failed "Failed to parse results" checks
        | Some value =>
            match parse_results value with
            | inl e => major e
            | inr results => results
            end
        end
      else
        let error_msg :=
          if String.eqb stderr EmptyString
          then "Unknown error in Selenium subprocess" else stderr in
        all_failed ("Runner error: " +:+ error_msg) checks
  end.

(** [run_evaluation_checks], given how the runner process ended and
    the reading of the clock. *)
Definition run_evaluation_checks (pages_url : string) (checks : list string)
    (task_id : string) (process : subprocess_outcome) (now : Z)
    (DB : gmap string TaskEntry) : gmap string TaskEntry :=
  let results := evaluation_results pages_url checks task_id process in
  match DB !! task_id with
  | Some entry =>
      let ev := evaluation entry in
      <[task_id := set_evaluation
          (mkEvaluationResult "completed" (submitted_at ev) (submission_data ev)
             (Some now) results) entry]> DB
  | None => DB
  end.
End Evaluation.

(** A handler that awaits the outbound call: the registry as it stands
    when the call is made, what is posted and where, and the rest of the
    handler, which resumes on the registry of that later moment. *)
Inductive dispatch :=
| Finished (r : reply (list (string * string))) (DB : gmap string TaskEntry)
| AwaitPost (DB : gmap string TaskEntry) (url : string) (payload : TaskRequest.t)
    (resume : post_outcome -> gmap string TaskEntry ->
              reply (list (string * string)) * gmap string TaskEntry).

Section Endpoints.
Variable SETTINGS : Settings.

Definition mark_failed_to_send (entry : TaskEntry) : TaskEntry :=
  set_evaluation (set_status "failed_to_send" (evaluation entry)) entry.

(** [start_test] from the answer of the student API onwards. Every
    [DB[task_id]] is a fresh look-up; one that fails is a [KeyError]
    that no handler of the function catches. *)
Definition start_test_resume (task_id : string) (outcome : post_outcome)
    (DB : gmap string TaskEntry)
  : reply (list (string * string)) * gmap string TaskEntry :=
  match outcome with
  | Response status_code text =>
      match DB !! task_id with
      | None => (Unhandled "KeyError", DB)
      | Some entry =>
          let entry := set_response status_code text entry in
          if negb (status_code =? 200) then
            (Return [("status", "error");
                     ("detail", "Student API returned " +:+ str_of_int status_code);
                     ("response", text)],
             <[task_id := mark_failed_to_send entry]> DB)
          else
            (Return [("status", "sent"); ("task_id", task_id)],
             <[task_id := entry]> DB)
      end
  | RequestError e =>
      match DB !! task_id with
      | None => (Unhandled "KeyError", DB)
      | Some entry =>
          (HTTPException 500 ("Could not connect to student API: " +:+ e),
           <[task_id := mark_failed_to_send entry]> DB)
      end
  | OtherError what => (Unhandled what, DB)
  end.

Definition start_test (test_case_id : string) (round_id : Z) (now : Z)
    (DB : gmap string TaskEntry) : dispatch :=
  match TEST_CASES !! test_case_id ≫= (fun rounds => rounds !! round_id) with
  | None => Finished (HTTPException 404 "Test case or round not found.") DB
  | Some test_data =>
      let task_id := tc_task test_data in
      let request_payload :=
        TaskRequest.mk "student@example.com" (SHARED_SECRET SETTINGS) (tc_task test_data)
          round_id (tc_nonce test_data) (tc_brief test_data) (tc_checks test_data)
          (EVALUATION_URL SETTINGS) (tc_attachments test_data) in
      let DB := <[task_id := mkTaskEntry request_payload now None None
                               EvaluationResult_default]> DB in
      AwaitPost DB (STUDENT_API_ENDPOINT SETTINGS) request_payload
        (start_test_resume task_id)
  end.

(** A dispatch with no other request served while it awaits. *)
Definition start_test_run (test_case_id : string) (round_id : Z) (now : Z)
    (outcome : post_outcome) (DB : gmap string TaskEntry)
  : reply (list (string * string)) * gmap string TaskEntry :=
  match start_test test_case_id round_id now DB with
  | Finished r DB' => (r, DB')
  | AwaitPost DB' _ _ resume => resume outcome DB'
  end.

(** The handlers below return their reply, the registry and the tasks
    handed to [background_tasks], which run after the response. *)
Definition notify_endpoint (submission : StudentSubmission.t) (now : Z)
    (DB : gmap string TaskEntry)
  : reply (list (string * string)) * gmap string TaskEntry * list BackgroundTask :=
  let task_id := StudentSubmission.task submission in
  match DB !! task_id with
  | None => (HTTPException 404 "Task ID not found.", DB, [])
  | Some entry =>
      let original_request := request entry in
      if negb (String.eqb (TaskRequest.nonce original_request)
                          (StudentSubmission.nonce submission))
         || negb (TaskRequest.round original_request
                  =? StudentSubmission.round submission)
      then (HTTPException 400 "Nonce or round mismatch.", DB, [])
      else
        let eval_entry := evaluation entry in
        let eval_entry :=
          mkEvaluationResult "evaluating" (Some now) (Some submission)
            (evaluation_completed_at eval_entry) (check_results eval_entry) in
        (Return [("status", "accepted"); ("detail", "Evaluation has started.")],
         <[task_id := set_evaluation eval_entry entry]> DB,
         [mkBackgroundTask (StudentSubmission.pages_url submission)
            (TaskRequest.checks original_request) task_id])
  end.

Definition re_evaluate (task_id : string) (now : Z) (DB : gmap string TaskEntry)
  : reply (list (string * string)) * gmap string TaskEntry * list BackgroundTask :=
  match DB !! task_id with
  | None => (HTTPException 404 "Task ID not found.", DB, [])
  | Some task_entry =>
      match submission_data (evaluation task_entry) with
      | None => (HTTPException 400 "No submission data available to evaluate.", DB, [])
      | Some submission =>
          let pages_url := StudentSubmission.pages_url submission in
          if String.eqb pages_url EmptyString
          then (HTTPException 400 "Submission does not include a pages_url.", DB, [])
          else
            let eval_entry :=
              mkEvaluationResult "re-evaluating" (Some now) (Some submission) None [] in
            (Return [("status", "accepted"); ("detail", "Re-evaluation started.")],
             <[task_id := set_evaluation eval_entry task_entry]> DB,
             [mkBackgroundTask pages_url (TaskRequest.checks (request task_entry))
                task_id])
      end
  end.

Definition get_all_results (DB : gmap string TaskEntry) : gmap string TaskEntry := DB.

Definition get_task_result (task_id : string) (DB : gmap string TaskEntry)
  : reply TaskEntry :=
  match DB !! task_id with
  | None => HTTPException 404 "Task ID not found."
  | Some entry => Return entry
  end.
End Endpoints.

(** Running a scheduled task is a call of [run_evaluation_checks]. *)
Definition run_background json_loads CheckResult_of not_iterable
    (bt : BackgroundTask) (process : subprocess_outcome) (now : Z)
    (DB : gmap string TaskEntry) : gmap string TaskEntry :=
  run_evaluation_checks json_loads CheckResult_of not_iterable
    (bt_pages_url bt) (bt_checks bt) (bt_task_id bt) process now DB.

(** ** A page that does not change

    An instance of the driver interface used to run the definitions on
    concrete inputs: the session state is the page itself, an element is
    known by its id, every element is visible, and typing or clicking
    changes nothing. *)
Record Page := mkPage {
  page_title : string;
  page_elements : list (string * string);
  page_rows : nat
}.

Definition timeout_error : exn := ExternalError "Message: ".
Definition no_such_element : exn := ExternalError "Message: no such element".

Definition element_text (p : Page) (id : string) : option string :=
  snd <$> List.find (fun e => String.eqb (fst e) id) (page_elements p).

Definition static_find (by_ : By) (value : string) : M Page string :=
  fun p =>
    match by_, element_text p value with
    | ID, Some _ => (inr value, p)
    | _, _ => (inl no_such_element, p)
    end.

Definition static_wait (by_ : By) (value : string) : M Page string :=
  fun p =>
    match by_, element_text p value with
    | ID, Some _ => (inr value, p)
    | _, _ => (inl timeout_error, p)
    end.

Definition static_driver (start : exn + Page) : WebDriver Page string := {|
  Chrome := start;
  set_page_load_timeout := fun _ => mret ();
  get := fun _ => mret ();
  title := fun p => (inr (page_title p), p);
  find_element := static_find;
  find_elements := fun by_ value p =>
    match by_ with
    | CSS_SELECTOR =>
        if String.eqb value "#sales-table tbody tr"
        then (inr (replicate (page_rows p) "tr"), p) else (inr [], p)
    | ID => (inr (match element_text p value with Some _ => [value] | None => [] end), p)
    end;
  send_keys := fun _ _ => mret ();
  click := fun _ => mret ();
  clear := fun _ => mret ();
  text := fun e p =>
    match element_text p e with
    | Some t => (inr t, p)
    | None => (inl no_such_element, p)
    end;
  until_visibility_of_element_located := fun _ => static_wait;
  until_presence_of_element_located := fun _ => static_wait;
  until_text_to_be_present_in_element := fun _ by_ value txt p =>
    match by_, element_text p value with
    | ID, Some t => if contains txt t then (inr true, p) else (inl timeout_error, p)
    | _, _ => (inl timeout_error, p)
    end;
  until := fun _ condition p =>
    match condition p with
    | (inr true, p') => (inr true, p')
    | (_, p') => (inl timeout_error, p')
    end
|}.

Definition sales_page : Page :=
  mkPage "Sales Summary" [("total-sales", "650.75")] 3.

Definition plain_repr (s : string) : string := "'" +:+ s +:+ "'".


(** ** main.py: the origins allowed by the CORS middleware *)

(** [SETTINGS["ALLOWED_ORIGINS"]]: the variable of the environment, or
    ["*"] when it is not set, cut at the commas. *)
Definition ALLOWED_ORIGINS (env : option string) : list string :=
  split "," (default "*" env).

Definition nonempty (s : string) : bool :=
  match s with EmptyString => false | String _ _ => true end.

(** [allowed_origins]: the comprehension keeps the stripped pieces that
    are not empty; an empty list gives way to [["*"]]. *)
Definition allowed_origins (env : option string) : list string :=
  match List.filter nonempty (strip is_space <$> ALLOWED_ORIGINS env) with
  | [] => ["*"]
  | origins => origins
  end.

(** ** The registry under a sequence of events

    What writes to [DB]: [start_test] up to its outbound call, the rest of
    [start_test] once the call has ended (other events may come in
    between), the two other endpoints, and a run of
    [run_evaluation_checks]. *)
Inductive event :=
| Dispatched (test_case_id : string) (round_id now : Z)
| Answered (task_id : string) (outcome : post_outcome)
| Notified (submission : StudentSubmission.t) (now : Z)
| ReEvaluated (task_id : string) (now : Z)
| Evaluated (pages_url : string) (checks : list string) (task_id : string)
    (process : subprocess_outcome) (now : Z).

Section Events.
Variable SETTINGS : Settings.
Variable json_loads : string -> option json.
Variable CheckResult_of : json -> string + CheckResult.
Variable not_iterable : json -> string.

Definition apply_event (ev : event) (DB : gmap string TaskEntry)
  : gmap string TaskEntry :=
  match ev with
  | Dispatched test_case_id round_id now =>
      match start_test SETTINGS test_case_id round_id now DB with
      | Finished _ DB' => DB'
      | AwaitPost DB' _ _ _ => DB'
      end
  | Answered task_id outcome => (start_test_resume task_id outcome DB).2
  | Notified submission now => (notify_endpoint submission now DB).1.2
  | ReEvaluated task_id now => (re_evaluate task_id now DB).1.2
  | Evaluated pages_url checks task_id process now =>
      run_evaluation_checks json_loads CheckResult_of not_iterable
        pages_url checks task_id process now DB
  end.

Definition apply_events (evs : list event) (DB : gmap string TaskEntry)
  : gmap string TaskEntry :=
  foldl (fun db ev => apply_event ev db) DB evs.
End Events.

(** ** Names for what the properties speak of *)

(** Predicates on the characters of a string. *)
Definition is_digit (a : ascii) : bool :=
  match digit_of a with Some _ => true | None => false end.

Definition all_chars (p : ascii -> bool) (s : string) : bool :=
  forallb p (list_ascii_of_string s).

Definition sales_table_check : string :=
  "Page contains a table with id '#sales-table'".

Definition inputs_check : string :=
  "Page has an input with id '#username-input' and a button with id '#fetch-btn'".

(** The look-up that opens [start_test]. *)
Definition known_fixture (test_case_id : string) (round_id : Z) : option TestCase :=
  TEST_CASES !! test_case_id ≫= (fun rounds => rounds !! round_id).

(** The payload [start_test] builds for a round of a fixture. *)
Definition payload_for (SETTINGS : Settings) (round_id : Z) (test_data : TestCase)
  : TaskRequest.t :=
  TaskRequest.mk "student@example.com" (SHARED_SECRET SETTINGS) (tc_task test_data)
    round_id (tc_nonce test_data) (tc_brief test_data) (tc_checks test_data)
    (EVALUATION_URL SETTINGS) (tc_attachments test_data).

(** The record [start_test] stores. *)
Definition fresh_entry (SETTINGS : Settings) (round_id : Z) (test_data : TestCase)
    (now : Z) : TaskEntry :=
  mkTaskEntry (payload_for SETTINGS round_id test_data) now None None
    EvaluationResult_default.

(** ** Sample settings, registries and runs *)

Definition local_settings : Settings :=
  mkSettings "http://127.0.0.1:8000/notify" "http://student.test/task" "s3cret".

Definition sales_submission (nonce : string) : StudentSubmission.t :=
  StudentSubmission.mk "student@example.com" "sales-report-a8b3d" 1 nonce
    "https://github.com/student/sales" "abc123" "https://student.github.io/sales/".

Definition round1_sent : gmap string TaskEntry :=
  {[ "sales-report-a8b3d" :=
       mkTaskEntry
         (payload_for local_settings 1
            (mkTestCase "sales-report-a8b3d" "nonce-1a2b-3c4d" "brief"
               ["Page title is 'Sales Summary'"] []))
         10 (Some 200) (Some "ok") EvaluationResult_default ]}.

Definition round1_completed : gmap string TaskEntry :=
  {[ "sales-report-a8b3d" :=
       mkTaskEntry
         (payload_for local_settings 1
            (mkTestCase "sales-report-a8b3d" "nonce-1a2b-3c4d" "brief"
               ["Page title is 'Sales Summary'"] []))
         10 (Some 200) (Some "ok")
         (mkEvaluationResult "completed" (Some 20) None (Some 30)
            [mkCheckResult "Page title is 'Sales Summary'" true
               "Page title is correctly 'Sales Summary'."]) ]}.

Definition round1_evaluated : gmap string TaskEntry :=
  {[ "sales-report-a8b3d" :=
       mkTaskEntry
         (payload_for local_settings 1
            (mkTestCase "sales-report-a8b3d" "nonce-1a2b-3c4d" "brief"
               ["Page title is 'Sales Summary'"] []))
         10 (Some 200) (Some "ok")
         (mkEvaluationResult "completed" (Some 20)
            (Some (sales_submission "nonce-1a2b-3c4d")) (Some 30)
            [mkCheckResult "Page title is 'Sales Summary'" true
               "Page title is correctly 'Sales Summary'."]) ]}.

(** A decoder that rejects every output. *)
Definition no_json (_ : string) : option json := None.
Definition no_model (_ : json) : string + CheckResult := inl "validation error".
Definition no_iteration (_ : json) : string := "object is not iterable".

(** The dictionary the runner prints for a result, and the model
    [main.py] builds back from such a dictionary. *)
Definition result_json (r : CheckResult) : json :=
  JObject [("check", JString (check r)); ("passed", JBool (passed r));
           ("details", JString (details r))].

Definition model_of_json (item : json) : string + CheckResult :=
  match item with
  | JObject [("check", JString c); ("passed", JBool p); ("details", JString d)] =>
      inr (mkCheckResult c p d)
  | _ => inl "validation error"
  end.

Definition mixed_checks : list string :=
  ["Page title is 'Sales Summary'"; "Table has at least x data rows";
   "The text content of '#total-sales' is '650.75'"].

Definition mixed_results : list CheckResult :=
  run_selenium_checks (static_driver (inr sales_page)) plain_repr
    "https://student.github.io/sales/" mixed_checks.

(** A decoder that knows the one output ["[...]"], which stands for
    what the runner prints for [mixed_results]. *)
Definition printed_results (stdout : string) : option json :=
  if String.eqb stdout "[...]" then Some (JArray (result_json <$> mixed_results))
  else None.


(** A submission without a page URL. *)
Definition blank_submission : StudentSubmission.t :=
  StudentSubmission.mk "student@example.com" "sales-report-a8b3d" 1 "nonce-1a2b-3c4d"
    "https://github.com/student/sales" "abc123" EmptyString.

(** What holds of every record of the registry. *)
Definition record_ok (SETTINGS : Settings) (task_id : string) (entry : TaskEntry)
  : Prop :=
  let req := request entry in
  let ev := evaluation entry in
  TaskRequest.task req = task_id
  /\ (exists test_case_id test_data,
         known_fixture test_case_id (TaskRequest.round req) = Some test_data
         /\ req = payload_for SETTINGS (TaskRequest.round req) test_data)
  /\ status ev ∈ ["pending"; "failed_to_send"; "evaluating"; "re-evaluating";
                  "completed"]
  /\ (forall submission,
         submission_data ev = Some submission ->
         StudentSubmission.task submission = task_id
         /\ StudentSubmission.nonce submission = TaskRequest.nonce req
         /\ StudentSubmission.round submission = TaskRequest.round req)
  /\ (status ev = "evaluating" \/ status ev = "re-evaluating" ->
      is_Some (submission_data ev))
  /\ (status ev = "pending" ->
      submission_data ev = None /\ submitted_at ev = None
      /\ evaluation_completed_at ev = None /\ check_results ev = []).

Definition registry_ok (SETTINGS : Settings) (DB : gmap string TaskEntry) : Prop :=
  map_Forall (record_ok SETTINGS) DB.

Ltac status_in := apply list_elem_of_In; simpl; auto 10.
Ltac unfold_M := unfold mbind, M_bind, mret, M_ret, raise, item in *.

(** * Properties *)

(** ** Strings *)

Lemma split_before_separator (c : ascii) (s rest : string) :
  all_chars (fun a => negb (Ascii.eqb a c)) s = true ->
  split c (s +:+ String c rest) = s :: split c rest.
Proof.
  induction s as [|a s IH]; simpl; intros H.
  - by rewrite Ascii.eqb_refl.
  - apply andb_prop in H as [Ha Hs].
    apply negb_true_iff in Ha. rewrite Ha, (IH Hs). done.
Qed.

Lemma rstrip_none (p : ascii -> bool) (s : string) :
  all_chars (fun a => negb (p a)) s = true -> rstrip p s = s.
Proof.
  induction s as [|a s IH]; simpl; intros H; [done|].
  apply andb_prop in H as [Ha Hs].
  apply negb_true_iff in Ha. rewrite (IH Hs), Ha. by destruct s.
Qed.

Lemma lstrip_none (p : ascii -> bool) (s : string) :
  all_chars (fun a => negb (p a)) s = true -> lstrip p s = s.
Proof.
  destruct s as [|a s]; simpl; intros H; [done|].
  apply andb_prop in H as [Ha _].
  apply negb_true_iff in Ha. by rewrite Ha.
Qed.

Lemma all_chars_impl (p q : ascii -> bool) (s : string) :
  (forall a, p a = true -> q a = true) ->
  all_chars p s = true -> all_chars q s = true.
Proof.
  intros Hpq. unfold all_chars.
  induction (list_ascii_of_string s) as [|a l IH]; simpl; [done|].
  intros H. apply andb_prop in H as [Ha Hl].
  by rewrite (Hpq _ Ha), (IH Hl).
Qed.

Lemma digit_not_blank (a : ascii) :
  is_digit a = true -> negb (Ascii.eqb a " ") = true.
Proof.
  intros H. apply negb_true_iff, Ascii.eqb_neq. by intros ->.
Qed.

(** The decimal numerals of the standard library are made of digits. *)
Lemma uint_all_digits (d : Decimal.uint) :
  all_chars is_digit (NilEmpty.string_of_uint d) = true.
Proof. induction d; simpl; auto. Qed.

Lemma str_of_nat_all_digits (n : nat) : all_chars is_digit (str_of_nat n) = true.
Proof.
  unfold str_of_nat, NilZero.string_of_uint.
  destruct (Nat.to_uint n) eqn:E; try done; rewrite <- E; apply uint_all_digits.
Qed.

(** Scanning a numeral of the standard library reads the number the
    library reads from it, and counts its characters. *)
Lemma int_scan_uint (d : Decimal.uint) (acc k : Z) :
  0 <= acc ->
  int_scan (NilEmpty.string_of_uint d) acc k false
  = Some (Z.of_nat (Nat.of_uint_acc d (Z.to_nat acc)),
          k + Z.of_nat (String.length (NilEmpty.string_of_uint d)), EmptyString).
Proof.
  revert acc k. induction d; intros acc k Hacc;
    cbn [NilEmpty.string_of_uint int_scan String.length Nat.of_uint_acc];
    [by rewrite Z2Nat.id, Z.add_0_r|..];
    match goal with
    | |- context [digit_of ?c] =>
        let v := eval vm_compute in (digit_of c) in
        change (digit_of c) with v; cbv iota
    end;
    rewrite IHd by lia; rewrite Nat.tail_mul_spec;
    f_equal; apply pair_equal_spec; (split; [|done]);
    apply pair_equal_spec; (split; [do 2 f_equal; lia | lia]).
Qed.

(** On a string that begins with a digit, [int] goes straight to the
    scan. *)
Lemma py_int_digit_first (c : ascii) (r : string) :
  is_digit c = true ->
  py_int (String c r) = int_unsigned false (String c r).
Proof.
  intros H.
  destruct c as [[] [] [] [] [] [] [] []];
    try (vm_compute in H; discriminate H); reflexivity.
Qed.

Lemma int_unsigned_digit_first (c : ascii) (r : string) :
  is_digit c = true ->
  int_unsigned false (String c r)
  = match int_scan (String c r) 0 0 false with
    | None => InvalidLiteral
    | Some (n, digits, rest) =>
        if int_max_str_digits <? digits then ExceedsLimit digits
        else if digits =? 0 then InvalidLiteral
        else match lstrip is_int_space rest with
             | EmptyString => IntValue n
             | String _ _ => InvalidLiteral
             end
    end.
Proof.
  intros H.
  destruct c as [[] [] [] [] [] [] [] []];
    try (vm_compute in H; discriminate H); reflexivity.
Qed.

Lemma uint_first_digit (d : Decimal.uint) :
  d = Decimal.Nil
  \/ exists c r,
       NilEmpty.string_of_uint d = String c r /\ is_digit c = true
       /\ NilZero.string_of_uint d = NilEmpty.string_of_uint d.
Proof. destruct d; [by left|..]; right; by eexists _, _. Qed.

(** [int] reads back the decimal numeral of a natural number that is
    within the limit on the number of digits. *)
Lemma py_int_str_of_nat (n : nat) :
  (String.length (str_of_nat n) <= 4300)%nat ->
  py_int (str_of_nat n) = IntValue (Z.of_nat n).
Proof.
  rewrite <- (DecimalNat.Unsigned.of_to n) at 3.
  unfold str_of_nat.
  destruct (uint_first_digit (Nat.to_uint n)) as [->|(c & r & Hs & Hc & ->)]; [done|].
  intros Hlen.
  pose proof (int_scan_uint (Nat.to_uint n) 0 0 (Z.le_refl 0)) as Hscan.
  rewrite Hs in Hlen, Hscan |- *.
  rewrite (py_int_digit_first c r Hc), (int_unsigned_digit_first c r Hc), Hscan.
  unfold int_max_str_digits.
  destruct (Z.ltb_spec 4300 (0 + Z.of_nat (String.length (String c r))));
    [lia|].
  destruct (Z.eqb_spec (0 + Z.of_nat (String.length (String c r))) 0);
    [simpl in *; lia|].
  reflexivity.
Qed.

(** ** The runner *)

Lemma all_failed_checks (detail : string) (checks : list string) :
  check <$> all_failed detail checks = checks.
Proof.
  unfold all_failed. rewrite <- list_fmap_compose. apply list_fmap_id.
Qed.

Lemma all_failed_elem (detail : string) (checks : list string) (r : CheckResult) :
  r ∈ all_failed detail checks -> r = mkCheckResult (check r) false detail.
Proof.
  unfold all_failed. intros (c & -> & _)%list_elem_of_fmap. done.
Qed.

Section RunnerFacts.
Context {D E : Type}.
Variable driver : WebDriver D E.
Variable py_repr : string -> string.

Lemma run_check_check (c : string) (d : D) :
  check (run_check driver py_repr c d).1 = c.
Proof.
  unfold run_check. by destruct (check_body driver c d) as [[e|[p det]] d'].
Qed.


Lemma run_each_cons (c : string) (rest : list string) (d : D) :
  (run_each driver py_repr (c :: rest) d).1
  = (run_check driver py_repr c d).1
    :: (run_each driver py_repr rest (run_check driver py_repr c d).2).1.
Proof.
  simpl. destruct (run_check driver py_repr c d) as [r d1]. simpl.
  by destruct (run_each driver py_repr rest d1) as [rs d2].
Qed.


(** Every dictionary of the list was produced by one turn of the loop,
    on the description it carries. *)
Lemma run_each_elem (checks : list string) (d : D) (r : CheckResult) :
  r ∈ (run_each driver py_repr checks d).1 ->
  exists c d', c ∈ checks /\ r = (run_check driver py_repr c d').1.
Proof.
  revert d. induction checks as [|c rest IH]; intros d.
  - simpl. by intros ?%elem_of_nil.
  - rewrite run_each_cons. intros [->|Hin]%elem_of_cons.
    + exists c, d. split; [apply list_elem_of_here|done].
    + destruct (IH _ Hin) as (c' & d' & Hc & ->).
      exists c', d'. split; [by apply list_elem_of_further|done].
Qed.


Lemma check_body_unknown (c : string) (d : D) :
  classify c = UnknownCheckType ->
  run_check driver py_repr c d
  = (mkCheckResult c false ("Unknown check type: " +:+ c), d).
Proof. unfold run_check, check_body. by intros ->. Qed.

Lemma classify_unknown (c : string) :
  startswith "Page title is" c = false ->
  startswith "Page contains an element with id" c = false ->
  startswith "The text content of" c = false ->
  contains "Table has at least" c = false ->
  contains "After entering 'octocat'" c = false ->
  contains "When fetching user 'octocat'" c = false ->
  contains "When fetching a user that does not exist" c = false ->
  classify c = UnknownCheckType.
Proof. unfold classify. by intros -> -> -> -> -> -> ->. Qed.
End RunnerFacts.

Lemma startswith_app (p s : string) :
  startswith p s = true -> exists rest, s = p +:+ rest.
Proof.
  revert s. induction p as [|a p IH]; intros s; simpl.
  - by exists s.
  - destruct s as [|b s]; [done|].
    destruct (Ascii.eqb_spec a b) as [->|]; [|done].
    intros [rest ->]%IH. by exists rest.
Qed.

(** C7. A description that meets none of the conditions of the chain is
    never an error of the runner: in every state of the session the turn of
    the loop leaves the session as it was and yields a result with
    [passed = False] and the detail ["Unknown check type: "] followed by
    the description; and once the session has been opened, every result of
    [run_selenium_checks] for that description is this one. *)
Theorem unknown_check_fails_with_detail
    {D E : Type} (driver : WebDriver D E) (py_repr : string -> string)
    (check_str : string) :
  startswith "Page title is" check_str = false ->
  startswith "Page contains an element with id" check_str = false ->
  startswith "The text content of" check_str = false ->
  contains "Table has at least" check_str = false ->
  contains "After entering 'octocat'" check_str = false ->
  contains "When fetching user 'octocat'" check_str = false ->
  contains "When fetching a user that does not exist" check_str = false ->
  (forall d : D,
      run_check driver py_repr check_str d
      = (mkCheckResult check_str false ("Unknown check type: " +:+ check_str), d))
  /\ (forall (pages_url : string) (checks : list string) (d : D) (r : CheckResult),
         open_session driver pages_url = inr d ->
         r ∈ run_selenium_checks driver py_repr pages_url checks ->
         check r = check_str ->
         r = mkCheckResult check_str false ("Unknown check type: " +:+ check_str)).
Proof.
  intros H1 H2 H3 H4 H5 H6 H7.
  pose proof (classify_unknown check_str H1 H2 H3 H4 H5 H6 H7) as Hk.
  split.
  - intros d. by apply check_body_unknown.
  - intros pages_url checks d r Hopen Hin Hr.
    unfold run_selenium_checks in Hin. rewrite Hopen in Hin.
    apply run_each_elem in Hin as (c & d' & _ & ->).
    rewrite run_check_check in Hr. subst c.
    by rewrite check_body_unknown.
Qed.

Lemma unknown_check_fails_with_detail_witness :
  run_selenium_checks (static_driver (inr sales_page)) plain_repr "http://pages.test/"
    [inputs_check]
  = [mkCheckResult inputs_check false ("Unknown check type: " +:+ inputs_check)].
Proof.
  pose proof (@unknown_check_fails_with_detail Page string
                (static_driver (inr sales_page)) plain_repr inputs_check
                eq_refl eq_refl eq_refl eq_refl eq_refl eq_refl eq_refl) as [H _].
  unfold run_selenium_checks.
  change (open_session (static_driver (inr sales_page)) "http://pages.test/")
    with (@inr exn Page sales_page).
  cbn [run_each]. by rewrite H.
Defined.

(** C9. The element-visibility branch is taken by exactly the
    descriptions that begin with ["Page contains an element with id"]. The
    first check of round 2 of the sales fixture,
    ["Page contains a table with id '#sales-table'"], meets no condition of
    the chain: whatever the state of the session, its turn of the loop
    yields [passed = False] with the detail ["Unknown check type: Page
    contains a table with id '#sales-table'"], and no run of
    [run_selenium_checks] reports it as passed. *)
Theorem sales_table_check_never_passes
    {D E : Type} (driver : WebDriver D E) (py_repr : string -> string) :
  (forall check_str,
      classify check_str = PageContainsElement
      <-> startswith "Page contains an element with id" check_str = true)
  /\ (exists test_data,
         TEST_CASES !! "sales-report" ≫= (fun rounds => rounds !! 2) = Some test_data
         /\ sales_table_check ∈ tc_checks test_data)
  /\ classify sales_table_check = UnknownCheckType
  /\ (forall d : D,
         run_check driver py_repr sales_table_check d
         = (mkCheckResult sales_table_check false
              "Unknown check type: Page contains a table with id '#sales-table'", d))
  /\ (forall (pages_url : string) (checks : list string) (r : CheckResult),
         r ∈ run_selenium_checks driver py_repr pages_url checks ->
         check r = sales_table_check ->
         passed r = false).
Proof.
  split; [|split; [|split; [|split]]].
  - intros c. unfold classify. split.
    + by repeat case_match.
    + intros H. destruct (startswith_app _ _ H) as [rest ->]. done.
  - eexists. split; [by vm_compute|]. simpl. set_solver.
  - done.
  - intros d. by apply check_body_unknown.
  - intros pages_url checks r Hin Hr. unfold run_selenium_checks in Hin.
    destruct (open_session driver pages_url) as [e|d].
    + apply all_failed_elem in Hin. by rewrite Hin.
    + apply run_each_elem in Hin as (c & d' & _ & ->).
      rewrite run_check_check in Hr. subst c.
      by rewrite check_body_unknown.
Qed.

Lemma sales_table_check_never_passes_witness :
  passed (mkCheckResult sales_table_check false
            ("Unknown check type: " +:+ sales_table_check)) = false
  /\ classify "Page contains an element with id '#sales-table'" = PageContainsElement.
Proof.
  pose proof (@sales_table_check_never_passes Page string
                (static_driver (inr sales_page)) plain_repr) as (Hk & _ & _ & _ & Hp).
  split.
  - apply (Hp "http://pages.test/" [sales_table_check]); [|done].
    vm_compute. apply list_elem_of_here.
  - apply Hk. reflexivity.
Defined.

(** The words of a description of the table-rows form. *)
Lemma split_table_description (word rest : string) :
  all_chars (fun a => negb (Ascii.eqb a " ")) word = true ->
  split " " ("Table has at least " +:+ word +:+ " " +:+ rest)
  = "Table" :: "has" :: "at" :: "least" :: word :: split " " rest.
Proof.
  intros Hd.
  change ("Table has at least " +:+ word +:+ " " +:+ rest)
    with ("Table" +:+ String " " ("has" +:+ String " " ("at" +:+ String " "
            ("least" +:+ String " " (word +:+ String " " rest))))).
  by rewrite !split_before_separator.
Qed.

(** C8. A description ["Table has at least N ... rows"], with [N] a
    decimal numeral of no more digits than [int] accepts (4300), takes the
    table-rows branch. The branch reads [N] from the description and counts
    the elements found under the selector ["#sales-table tbody tr"], which
    is a constant of the code whatever else the description says; the check
    passes if and only if that count is at least [N]. *)
Theorem table_check_passes_iff_enough_rows
    {D E : Type} (driver : WebDriver D E) (py_repr : string -> string)
    (N : nat) (rest : string) (d d' : D) (found : list E) :
  (String.length (str_of_nat N) <= 4300)%nat ->
  find_elements driver CSS_SELECTOR "#sales-table tbody tr" d = (inr found, d') ->
  let description := "Table has at least " +:+ str_of_nat N +:+ " " +:+ rest +:+ "rows" in
  let rows := Z.of_nat (length found) in
  classify description = TableHasAtLeast
  /\ run_check driver py_repr description d
     = (mkCheckResult description (N <=? length found)%nat
          (if (N <=? length found)%nat
           then "Table has " +:+ str_of_int rows +:+ " data rows, meeting the requirement."
           else "Expected at least " +:+ str_of_int (Z.of_nat N)
                +:+ " rows, but found " +:+ str_of_int rows +:+ "."), d')
  /\ (passed (run_check driver py_repr description d).1 = true
      <-> (N <= length found)%nat).
Proof.
  intros Hdigits Hfind description rows.
  assert (classify description = TableHasAtLeast) as Hk by done.
  assert (run_check driver py_repr description d
          = (mkCheckResult description (N <=? length found)%nat
               (if (N <=? length found)%nat
                then "Table has " +:+ str_of_int rows
                     +:+ " data rows, meeting the requirement."
                else "Expected at least " +:+ str_of_int (Z.of_nat N)
                     +:+ " rows, but found " +:+ str_of_int rows +:+ "."), d')) as Hrun.
  { unfold run_check, check_body. rewrite Hk. unfold check_table. unfold_M.
    unfold description at 1.
    rewrite split_table_description
      by (eapply all_chars_impl; [apply digit_not_blank | apply str_of_nat_all_digits]).
    cbn [lookup list_lookup]. unfold_M. cbn beta iota.
    rewrite (py_int_str_of_nat N Hdigits), Hfind.
    fold rows.
    replace (Z.of_nat N <=? rows) with (N <=? length found)%nat.
    - by destruct (N <=? length found)%nat.
    - unfold rows. destruct (Nat.leb_spec N (length found)).
      + symmetry. apply Z.leb_le. lia.
      + symmetry. apply Z.leb_gt. lia. }
  split; [exact Hk|]. split; [exact Hrun|].
  rewrite Hrun. simpl. apply Nat.leb_le.
Qed.

Lemma table_check_passes_iff_enough_rows_witness :
  passed (run_check (static_driver (inr sales_page)) plain_repr
            "Table has at least 3 data rows" sales_page).1 = true
  /\ passed (run_check (static_driver (inr sales_page)) plain_repr
               "Table has at least 4 data rows" sales_page).1 = false.
Proof.
  pose proof (@table_check_passes_iff_enough_rows Page string
                (static_driver (inr sales_page)) plain_repr 3 "data "
                sales_page sales_page ["tr"; "tr"; "tr"] ltac:(simpl; lia) eq_refl)
    as (_ & _ & H3).
  pose proof (@table_check_passes_iff_enough_rows Page string
                (static_driver (inr sales_page)) plain_repr 4 "data "
                sales_page sales_page ["tr"; "tr"; "tr"] ltac:(simpl; lia) eq_refl)
    as (_ & H4 & _).
  split.
  - apply H3. simpl. lia.
  - change ("Table has at least " +:+ str_of_nat 4 +:+ " " +:+ "data " +:+ "rows")
      with "Table has at least 4 data rows" in H4.
    by rewrite H4.
Defined.

(** ** The registry and the endpoints *)

Lemma start_test_known (SETTINGS : Settings) (test_case_id : string)
    (round_id now : Z) (DB : gmap string TaskEntry) (test_data : TestCase) :
  known_fixture test_case_id round_id = Some test_data ->
  start_test SETTINGS test_case_id round_id now DB
  = AwaitPost (<[tc_task test_data := fresh_entry SETTINGS round_id test_data now]> DB)
      (STUDENT_API_ENDPOINT SETTINGS) (payload_for SETTINGS round_id test_data)
      (start_test_resume (tc_task test_data)).
Proof.
  unfold known_fixture, start_test. by intros ->.
Qed.

Lemma start_test_unknown (SETTINGS : Settings) (test_case_id : string)
    (round_id now : Z) (DB : gmap string TaskEntry) :
  known_fixture test_case_id round_id = None ->
  start_test SETTINGS test_case_id round_id now DB
  = Finished (HTTPException 404 "Test case or round not found.") DB.
Proof.
  unfold known_fixture, start_test. by intros ->.
Qed.

(** The rounds of a fixture carry one task id. *)
Lemma fixture_rounds_share_task (test_case_id : string) (r1 r2 : Z)
    (td1 td2 : TestCase) :
  known_fixture test_case_id r1 = Some td1 ->
  known_fixture test_case_id r2 = Some td2 ->
  tc_task td1 = tc_task td2.
Proof.
  unfold known_fixture, TEST_CASES.
  intros H1 H2.
  apply bind_Some in H1 as (rounds & Hf & H1).
  apply bind_Some in H2 as (rounds' & Hf' & H2).
  rewrite Hf in Hf'. injection Hf' as <-.
  apply lookup_insert_Some in Hf as [[_ <-]|[_ Hf]].
  - apply lookup_insert_Some in H1 as [[_ <-]|[_ [_ <-]%lookup_singleton_Some]];
      apply lookup_insert_Some in H2 as [[_ <-]|[_ [_ <-]%lookup_singleton_Some]];
      done.
  - apply lookup_singleton_Some in Hf as [_ <-].
    apply lookup_insert_Some in H1 as [[_ <-]|[_ [_ <-]%lookup_singleton_Some]];
      apply lookup_insert_Some in H2 as [[_ <-]|[_ [_ <-]%lookup_singleton_Some]];
      done.
Qed.

(** What the rest of the handler leaves under the task id. *)
Lemma start_test_resume_keeps (task_id : string) (outcome : post_outcome)
    (DB : gmap string TaskEntry) (entry : TaskEntry) :
  DB !! task_id = Some entry ->
  exists entry',
    (start_test_resume task_id outcome DB).2 !! task_id = Some entry'
    /\ request entry' = request entry
    /\ check_results (evaluation entry') = check_results (evaluation entry).
Proof.
  intros Hl. unfold start_test_resume.
  destruct outcome as [code text|msg|what]; rewrite ?Hl.
  - destruct (negb (code =? 200)); simpl; rewrite lookup_insert_eq; eauto.
  - simpl. rewrite lookup_insert_eq. eauto.
  - simpl. eauto.
Qed.

(** C10. A dispatch of a known round stores, under the task id of the
    fixture, a record built from nothing but the fixture, the settings and
    the clock: its evaluation has status ["pending"] and no check results,
    and whatever the registry held under that id before has no part in it.
    The rounds of a fixture share their task id, so the dispatch of round 2
    replaces the record of round 1, results included. *)
Theorem start_test_replaces_entry (SETTINGS : Settings) (test_case_id : string)
    (round_id now : Z) (DB : gmap string TaskEntry) (test_data : TestCase) :
  known_fixture test_case_id round_id = Some test_data ->
  (exists DB' url payload resume,
      start_test SETTINGS test_case_id round_id now DB = AwaitPost DB' url payload resume
      /\ DB' !! tc_task test_data
         = Some (mkTaskEntry payload now None None EvaluationResult_default)
      /\ TaskRequest.round payload = round_id
      /\ DB' = <[tc_task test_data :=
                   mkTaskEntry payload now None None EvaluationResult_default]>
                 (delete (tc_task test_data) DB))
  /\ status EvaluationResult_default = "pending"
  /\ check_results EvaluationResult_default = []
  /\ (forall other_round other_data,
         known_fixture test_case_id other_round = Some other_data ->
         tc_task other_data = tc_task test_data).
Proof.
  intros Hk. split; [|split; [done|split; [done|]]].
  - rewrite (start_test_known _ _ _ _ _ _ Hk).
    eexists _, _, _, _. split; [done|]. split; [by rewrite lookup_insert_eq|].
    split; [done|]. by rewrite insert_delete_eq.
  - intros r td Hr. by eapply fixture_rounds_share_task.
Qed.

Lemma start_test_replaces_entry_witness :
  exists DB' url payload resume,
    start_test local_settings "sales-report" 2 40 round1_completed
    = AwaitPost DB' url payload resume
    /\ DB' !! "sales-report-a8b3d"
       = Some (mkTaskEntry payload 40 None None EvaluationResult_default)
    /\ TaskRequest.round payload = 2.
Proof.
  destruct (start_test_replaces_entry local_settings "sales-report" 2 40
              round1_completed _ eq_refl) as [(DB' & url & p & k & H1 & H2 & H3 & _) _].
  exists DB', url, p, k. by repeat split.
Defined.

(** C1, as the code has it. For every dispatch of a known fixture and
    round, the record is in the registry under the task id of the fixture
    when the outbound call is made, and its evaluation status is
    ["pending"] at that moment; whatever the outcome of the call, a record
    with the dispatched payload is still under that id when the handler
    ends. *)
Theorem start_test_records_before_post (SETTINGS : Settings)
    (test_case_id : string) (round_id now : Z) (DB : gmap string TaskEntry)
    (test_data : TestCase) :
  known_fixture test_case_id round_id = Some test_data ->
  exists DB' url payload resume,
    start_test SETTINGS test_case_id round_id now DB = AwaitPost DB' url payload resume
    /\ TaskRequest.task payload = tc_task test_data
    /\ (exists entry,
           DB' !! tc_task test_data = Some entry
           /\ request entry = payload
           /\ status (evaluation entry) = "pending")
    /\ (forall outcome, exists entry',
           (resume outcome DB').2 !! tc_task test_data = Some entry'
           /\ request entry' = payload).
Proof.
  intros Hk. rewrite (start_test_known _ _ _ _ _ _ Hk).
  eexists _, _, _, _. split; [done|]. split; [done|]. split.
  - eexists. by rewrite lookup_insert_eq.
  - intros outcome.
    destruct (start_test_resume_keeps (tc_task test_data) outcome
                (<[tc_task test_data := fresh_entry SETTINGS round_id test_data now]> DB)
                _ (lookup_insert_eq _ _ _)) as (entry' & Hl & Hr & _).
    by exists entry'.
Qed.

Lemma start_test_records_before_post_witness :
  exists DB' url payload resume,
    start_test local_settings "github-user-info" 1 0 ∅ = AwaitPost DB' url payload resume
    /\ exists entry,
         DB' !! "github-user-info-c7e4f" = Some entry
         /\ status (evaluation entry) = "pending".
Proof.
  destruct (start_test_records_before_post local_settings "github-user-info" 1 0 ∅
              _ eq_refl) as (DB' & url & p & k & H1 & _ & (entry & H2 & _ & H3) & _).
  exists DB', url, p, k. split; [exact H1|]. by exists entry.
Defined.

(** C1, as the specification words it, fails: when the call for round 1
    of the sales fixture is made, the record under the task id does not
    have the status ["sent"]. *)
Lemma start_test_status_not_sent :
  ~ exists DB' url payload resume entry,
      start_test local_settings "sales-report" 1 0 ∅ = AwaitPost DB' url payload resume
      /\ DB' !! "sales-report-a8b3d" = Some entry
      /\ status (evaluation entry) = "sent".
Proof.
  intros (DB' & url & p & k & entry & H & Hl & Hs).
  rewrite (start_test_known local_settings "sales-report" 1 0 ∅ _ eq_refl) in H.
  injection H as <- _ _ _. simpl in Hl.
  rewrite lookup_insert_eq in Hl. injection Hl as <-. discriminate Hs.
Qed.

(** C6. When the student API answers a dispatch with a status outside
    200..299, or the call fails with a transport error, the evaluation
    status of the record becomes ["failed_to_send"] and the caller is told
    of the failure: by a body with status ["error"] in the first case, by
    an [HTTPException] with code 500 in the second, which is the only one
    raised (an answer of the student API is always returned as a body).
    In both cases the record is still served by the results endpoints. *)
Theorem dispatch_failure_recorded (SETTINGS : Settings) (test_case_id : string)
    (round_id now : Z) (DB : gmap string TaskEntry) (test_data : TestCase) :
  known_fixture test_case_id round_id = Some test_data ->
  let task_id := tc_task test_data in
  (forall code text,
      ~ (200 <= code < 300) ->
      exists DB' entry,
        start_test_run SETTINGS test_case_id round_id now (Response code text) DB
        = (Return [("status", "error");
                   ("detail", "Student API returned " +:+ str_of_int code);
                   ("response", text)], DB')
        /\ DB' !! task_id = Some entry
        /\ status (evaluation entry) = "failed_to_send"
        /\ get_task_result task_id DB' = Return entry
        /\ get_all_results DB' !! task_id = Some entry)
  /\ (forall msg,
         exists DB' entry,
           start_test_run SETTINGS test_case_id round_id now (RequestError msg) DB
           = (HTTPException 500 ("Could not connect to student API: " +:+ msg), DB')
           /\ DB' !! task_id = Some entry
           /\ status (evaluation entry) = "failed_to_send"
           /\ get_task_result task_id DB' = Return entry
           /\ get_all_results DB' !! task_id = Some entry)
  /\ (forall code text,
         exists body DB',
           start_test_run SETTINGS test_case_id round_id now (Response code text) DB
           = (Return body, DB')).
Proof.
  intros Hk task_id. unfold start_test_run.
  rewrite (start_test_known _ _ _ _ _ _ Hk). fold task_id.
  unfold start_test_resume. rewrite !lookup_insert_eq.
  split; [|split].
  - intros code text Hcode.
    assert (negb (code =? 200) = true) as ->
        by (apply negb_true_iff, Z.eqb_neq; lia).
    eexists _, _. split; [done|]. unfold get_task_result, get_all_results.
    rewrite !lookup_insert_eq. done.
  - intros msg. eexists _, _. split; [done|].
    unfold get_task_result, get_all_results. rewrite !lookup_insert_eq. done.
  - intros code text. destruct (negb (code =? 200)); eauto.
Qed.

Lemma dispatch_failure_recorded_witness :
  exists DB' entry,
    start_test_run local_settings "sales-report" 1 0 (Response 503 "down") ∅
    = (Return [("status", "error"); ("detail", "Student API returned 503");
               ("response", "down")], DB')
    /\ DB' !! "sales-report-a8b3d" = Some entry
    /\ status (evaluation entry) = "failed_to_send".
Proof.
  destruct (dispatch_failure_recorded local_settings "sales-report" 1 0 ∅ _ eq_refl)
    as [H _].
  destruct (H 503 "down" ltac:(lia)) as (DB' & entry & H1 & H2 & H3 & _).
  by exists DB', entry.
Defined.

(** C3. A notification for a task id that the registry does not hold, or
    whose nonce or round differs from the dispatched payload, is refused
    with a 4xx [HTTPException]; the registry is left as it was and nothing
    is scheduled. A notification whose nonce and round match is answered
    ["accepted"] at once, with the runner scheduled on the submitted page
    with the dispatched checks; the record stored under the task id has
    the status ["evaluating"], the submission and the time of the
    notification, and is otherwise the record that was there: the results
    and the completion time are untouched when the handler returns. *)
Theorem notify_endpoint_validates (submission : StudentSubmission.t) (now : Z)
    (DB : gmap string TaskEntry) :
  let task_id := StudentSubmission.task submission in
  (DB !! task_id = None ->
   notify_endpoint submission now DB = (HTTPException 404 "Task ID not found.", DB, []))
  /\ (forall entry,
         DB !! task_id = Some entry ->
         TaskRequest.nonce (request entry) <> StudentSubmission.nonce submission
         \/ TaskRequest.round (request entry) <> StudentSubmission.round submission ->
         notify_endpoint submission now DB
         = (HTTPException 400 "Nonce or round mismatch.", DB, []))
  /\ (forall entry,
         DB !! task_id = Some entry ->
         TaskRequest.nonce (request entry) = StudentSubmission.nonce submission ->
         TaskRequest.round (request entry) = StudentSubmission.round submission ->
         exists stored,
           notify_endpoint submission now DB
           = (Return [("status", "accepted"); ("detail", "Evaluation has started.")],
              <[task_id := stored]> DB,
              [mkBackgroundTask (StudentSubmission.pages_url submission)
                 (TaskRequest.checks (request entry)) task_id])
           /\ status (evaluation stored) = "evaluating"
           /\ submission_data (evaluation stored) = Some submission
           /\ submitted_at (evaluation stored) = Some now
           /\ evaluation_completed_at (evaluation stored)
              = evaluation_completed_at (evaluation entry)
           /\ check_results (evaluation stored) = check_results (evaluation entry)
           /\ request stored = request entry
           /\ sent_at stored = sent_at entry
           /\ student_response_code stored = student_response_code entry
           /\ student_response_body stored = student_response_body entry).
Proof.
  intros task_id. unfold notify_endpoint. fold task_id.
  split; [|split].
  - by intros ->.
  - intros entry -> Hne.
    destruct (String.eqb_spec (TaskRequest.nonce (request entry))
                (StudentSubmission.nonce submission)) as [Hn|Hn]; [|done].
    destruct (Z.eqb_spec (TaskRequest.round (request entry))
                (StudentSubmission.round submission)) as [Hr|Hr]; [|done].
    by destruct Hne.
  - intros entry -> Hn Hr.
    rewrite Hn, Hr, String.eqb_refl, Z.eqb_refl. simpl.
    eexists. split; [reflexivity|]. by repeat split.
Qed.

Lemma notify_endpoint_validates_witness :
  notify_endpoint (sales_submission "wrong-nonce") 20 round1_sent
  = (HTTPException 400 "Nonce or round mismatch.", round1_sent, [])
  /\ exists stored,
       (notify_endpoint (sales_submission "nonce-1a2b-3c4d") 20 round1_sent).1.2
       !! "sales-report-a8b3d" = Some stored
       /\ status (evaluation stored) = "evaluating"
       /\ submission_data (evaluation stored)
          = Some (sales_submission "nonce-1a2b-3c4d")
       /\ submitted_at (evaluation stored) = Some 20
       /\ (notify_endpoint (sales_submission "nonce-1a2b-3c4d") 20 round1_sent).2
          = [mkBackgroundTask "https://student.github.io/sales/"
               ["Page title is 'Sales Summary'"] "sales-report-a8b3d"].
Proof.
  destruct (notify_endpoint_validates (sales_submission "wrong-nonce") 20 round1_sent)
    as (_ & Hbad & _).
  destruct (notify_endpoint_validates (sales_submission "nonce-1a2b-3c4d") 20
              round1_sent) as (_ & _ & Hok).
  split.
  - eapply Hbad; [reflexivity|]. left. discriminate.
  - destruct (Hok _ eq_refl eq_refl eq_refl)
      as (stored & Hrun & Hstatus & Hsub & Htime & _).
    exists stored. rewrite Hrun. simpl.
    split; [apply lookup_insert_eq|]. by repeat split.
Defined.

(** C5. A re-evaluation is refused with a 4xx [HTTPException], the
    registry left as it was, when the task id is unknown, when the record
    has no submission, or when the submission has an empty page URL.
    Otherwise it is answered ["accepted"] with the runner scheduled on the
    submitted page with the checks of the dispatched payload, and the
    record stored under the task id has no results, no completion time,
    the status ["re-evaluating"], the present time as the time of its
    submission, and the submission, the payload and the dispatch data it
    had. *)
Theorem re_evaluate_resets_and_reschedules (task_id : string) (now : Z)
    (DB : gmap string TaskEntry) :
  (DB !! task_id = None ->
   re_evaluate task_id now DB = (HTTPException 404 "Task ID not found.", DB, []))
  /\ (forall entry,
         DB !! task_id = Some entry ->
         submission_data (evaluation entry) = None ->
         re_evaluate task_id now DB
         = (HTTPException 400 "No submission data available to evaluate.", DB, []))
  /\ (forall entry submission,
         DB !! task_id = Some entry ->
         submission_data (evaluation entry) = Some submission ->
         StudentSubmission.pages_url submission = EmptyString ->
         re_evaluate task_id now DB
         = (HTTPException 400 "Submission does not include a pages_url.", DB, []))
  /\ (forall entry submission,
         DB !! task_id = Some entry ->
         submission_data (evaluation entry) = Some submission ->
         StudentSubmission.pages_url submission <> EmptyString ->
         exists stored,
           re_evaluate task_id now DB
           = (Return [("status", "accepted"); ("detail", "Re-evaluation started.")],
              <[task_id := stored]> DB,
              [mkBackgroundTask (StudentSubmission.pages_url submission)
                 (TaskRequest.checks (request entry)) task_id])
           /\ check_results (evaluation stored) = []
           /\ evaluation_completed_at (evaluation stored) = None
           /\ status (evaluation stored) = "re-evaluating"
           /\ submitted_at (evaluation stored) = Some now
           /\ submission_data (evaluation stored) = Some submission
           /\ request stored = request entry
           /\ sent_at stored = sent_at entry
           /\ student_response_code stored = student_response_code entry
           /\ student_response_body stored = student_response_body entry).
Proof.
  unfold re_evaluate. split; [|split; [|split]].
  - by intros ->.
  - by intros entry -> ->.
  - by intros entry submission -> -> ->.
  - intros entry submission -> -> Hurl.
    destruct (String.eqb_spec (StudentSubmission.pages_url submission) EmptyString);
      [done|].
    eexists. split; [reflexivity|]. by repeat split.
Qed.

Lemma re_evaluate_resets_and_reschedules_witness :
  re_evaluate "sales-report-a8b3d" 50 round1_sent
  = (HTTPException 400 "No submission data available to evaluate.", round1_sent, [])
  /\ exists stored,
       (re_evaluate "sales-report-a8b3d" 50 round1_evaluated).1.2
       !! "sales-report-a8b3d" = Some stored
       /\ check_results (evaluation stored) = []
       /\ evaluation_completed_at (evaluation stored) = None
       /\ status (evaluation stored) = "re-evaluating"
       /\ submitted_at (evaluation stored) = Some 50
       /\ (re_evaluate "sales-report-a8b3d" 50 round1_evaluated).2
          = [mkBackgroundTask "https://student.github.io/sales/"
               ["Page title is 'Sales Summary'"] "sales-report-a8b3d"].
Proof.
  destruct (re_evaluate_resets_and_reschedules "sales-report-a8b3d" 50 round1_sent)
    as (_ & Hnone & _).
  destruct (re_evaluate_resets_and_reschedules "sales-report-a8b3d" 50 round1_evaluated)
    as (_ & _ & _ & Hok).
  split.
  - eapply Hnone; reflexivity.
  - destruct (Hok _ _ eq_refl eq_refl ltac:(discriminate))
      as (stored & Hrun & Hres & Hdone & Hstatus & Htime & _).
    exists stored. rewrite Hrun. simpl.
    split; [apply lookup_insert_eq|]. by repeat split.
Defined.

(** ** The evaluation task *)

Section EvaluationFacts.
Variable json_loads : string -> option json.
Variable CheckResult_of : json -> string + CheckResult.
Variable not_iterable : json -> string.


End EvaluationFacts.






(** * Further properties of the runner *)

(** ** More on the string methods *)

Lemma startswith_no_separator (c : ascii) (old s : string) :
  all_chars (fun a => negb (Ascii.eqb a c)) old = true ->
  old <> EmptyString ->
  startswith old (s +:+ String c EmptyString) = startswith old s.
Proof.
  revert s. induction old as [|a old IH]; intros s Hold Hne; [done|].
  simpl in Hold. apply andb_prop in Hold as [Ha Hold].
  apply negb_true_iff in Ha.
  destruct s as [|b s]; simpl.
  - by rewrite Ha.
  - destruct (Ascii.eqb a b); [|done].
    destruct old as [|a' old']; [done|]. by apply IH.
Qed.

Lemma contains_no_separator (c : ascii) (old s : string) :
  all_chars (fun a => negb (Ascii.eqb a c)) old = true ->
  old <> EmptyString ->
  contains old (s +:+ String c EmptyString) = contains old s.
Proof.
  intros Hold Hne. induction s as [|b s IH].
  - destruct old as [|a old]; [done|]. simpl in *.
    apply andb_prop in Hold as [Ha _]. apply negb_true_iff in Ha.
    by rewrite Ha.
  - change (contains old (String b s +:+ String c EmptyString))
      with (startswith old (String b s +:+ String c EmptyString)
            || contains old (s +:+ String c EmptyString)).
    rewrite IH, (startswith_no_separator c old (String b s)) by done. done.
Qed.

Lemma remove_from_absent (old s : string) :
  contains old s = false -> remove_from old s 0 = s.
Proof.
  induction s as [|a s IH]; [done|].
  intros H. simpl in H. apply orb_false_iff in H as [Hs Hc].
  cbn [remove_from]. destruct old as [|b old]; [done|].
  rewrite Hs. f_equal. by apply IH.
Qed.

Lemma rstrip_trailing (p : ascii -> bool) (s : string) (c : ascii) :
  p c = true -> rstrip p (s +:+ String c EmptyString) = rstrip p s.
Proof.
  intros Hc. induction s as [|a s IH]; simpl.
  - by rewrite Hc.
  - by rewrite IH.
Qed.

(** A text between two characters of the stripped set, itself free of
    them, is what [strip] gives back. *)
Lemma strip_enclosed (p : ascii -> bool) (s : string) (c : ascii) :
  p c = true ->
  all_chars (fun a => negb (p a)) s = true ->
  strip p (String c (s +:+ String c EmptyString)) = s.
Proof.
  intros Hc Hs. unfold strip. cbn [lstrip]. rewrite Hc.
  destruct s as [|a s].
  - simpl. by rewrite Hc.
  - pose proof Hs as Hs'. simpl in Hs'. apply andb_prop in Hs' as [Ha _].
    apply negb_true_iff in Ha.
    change (String a s +:+ String c EmptyString)
      with (String a (s +:+ String c EmptyString)).
    cbn [lstrip]. rewrite Ha.
    change (String a (s +:+ String c EmptyString))
      with (String a s +:+ String c EmptyString).
    rewrite rstrip_trailing by done. by apply rstrip_none.
Qed.

Lemma split_no_separator (c : ascii) (s : string) :
  all_chars (fun a => negb (Ascii.eqb a c)) s = true -> split c s = [s].
Proof.
  induction s as [|a s IH]; simpl; intros H; [done|].
  apply andb_prop in H as [Ha Hs]. apply negb_true_iff in Ha.
  by rewrite Ha, (IH Hs).
Qed.

Lemma contains_char_absent (c : ascii) (s : string) :
  all_chars (fun a => negb (Ascii.eqb a c)) s = true ->
  contains (String c EmptyString) s = false.
Proof.
  induction s as [|a s IH]; simpl; intros H; [done|].
  apply andb_prop in H as [Ha Hs]. apply negb_true_iff in Ha.
  rewrite Ascii.eqb_sym, Ha. by apply IH.
Qed.

Lemma not_quotes_not_quote (s : string) :
  all_chars (fun a => negb (quotes a)) s = true ->
  all_chars (fun a => negb (Ascii.eqb a quote)) s = true.
Proof.
  apply all_chars_impl. intros a. unfold quotes.
  rewrite negb_orb. by intros [? _]%andb_prop.
Qed.

Lemma all_chars_lstrip (q p : ascii -> bool) (s : string) :
  all_chars q s = true -> all_chars q (lstrip p s) = true.
Proof.
  induction s as [|a s IH]; simpl; [done|].
  intros H. destruct (p a); [|done].
  apply andb_prop in H as [_ H]. by apply IH.
Qed.

(** ** The branches on descriptions of the documented forms *)

(** X1. The title quoted in ["Page title is '<title>'"] is the expected
    title, when it has no quote of either kind and does not repeat the
    phrase ["Page title is "]; the check passes if and only if the title
    of the page is that text, and a failure names both titles. *)
Theorem title_check_compares_quoted_title
    {D E : Type} (driver : WebDriver D E) (py_repr : string -> string)
    (expected actual : string) (d d' : D) :
  all_chars (fun a => negb (quotes a)) expected = true ->
  contains "Page title is " expected = false ->
  title driver d = (inr actual, d') ->
  let description := "Page title is '" +:+ expected +:+ "'" in
  run_check driver py_repr description d
  = (mkCheckResult description (String.eqb actual expected)
       (if String.eqb actual expected
        then "Page title is correctly '" +:+ expected +:+ "'."
        else "Expected title '" +:+ expected +:+ "', but got '" +:+ actual +:+ "'."),
     d')
  /\ (passed (run_check driver py_repr description d).1 = true <-> actual = expected).
Proof.
  intros Hq Hphrase Htitle description.
  assert (strip quotes (replace_with_empty "Page title is " description) = expected)
    as Hexp.
  { change (replace_with_empty "Page title is " description)
      with (remove_from "Page title is "
              (String quote (expected +:+ String quote EmptyString)) 0).
    rewrite remove_from_absent.
    - by apply strip_enclosed.
    - change (contains "Page title is "
                (String quote (expected +:+ String quote EmptyString)))
        with (contains "Page title is " (expected +:+ String quote EmptyString)).
      by rewrite contains_no_separator. }
  assert (run_check driver py_repr description d
          = (mkCheckResult description (String.eqb actual expected)
               (if String.eqb actual expected
                then "Page title is correctly '" +:+ expected +:+ "'."
                else "Expected title '" +:+ expected +:+ "', but got '"
                     +:+ actual +:+ "'."), d')) as Hrun.
  { unfold run_check, check_body.
    change (classify description) with PageTitleIs.
    unfold check_title. unfold_M. rewrite Hexp, Htitle.
    by destruct (String.eqb actual expected). }
  split; [exact Hrun|]. rewrite Hrun. simpl. apply String.eqb_eq.
Qed.

Lemma title_check_compares_quoted_title_witness :
  run_check (static_driver (inr sales_page)) plain_repr
    "Page title is 'Quarterly Report'" sales_page
  = (mkCheckResult "Page title is 'Quarterly Report'" false
       "Expected title 'Quarterly Report', but got 'Sales Summary'.", sales_page).
Proof.
  exact (proj1 (@title_check_compares_quoted_title Page string
                  (static_driver (inr sales_page)) plain_repr
                  "Quarterly Report" "Sales Summary" sales_page sales_page
                  eq_refl eq_refl eq_refl)).
Defined.

(** X2. For ["Page contains an element with id '<id>'"], whatever follows
    the closing quote, the runner waits for the element whose id is
    [<id>] without its leading ['#'] characters to be visible. The check
    passes when the wait ends, with a detail that quotes [<id>] as
    written; when the wait raises, the check fails with the text of the
    exception. *)
Theorem element_check_waits_for_stripped_id
    {D E : Type} (driver : WebDriver D E) (py_repr : string -> string)
    (id rest : string) (d : D) :
  all_chars (fun a => negb (Ascii.eqb a quote)) id = true ->
  let description := "Page contains an element with id '" +:+ id +:+ "'" +:+ rest in
  let wait := until_visibility_of_element_located driver 5 ID (lstrip hash id) in
  (forall element d',
      wait d = (inr element, d') ->
      run_check driver py_repr description d
      = (mkCheckResult description true
           ("Element with id '" +:+ id +:+ "' is visible."), d'))
  /\ (forall e d',
         wait d = (inl e, d') ->
         run_check driver py_repr description d
         = (mkCheckResult description false ("Check failed: " +:+ str py_repr e), d')).
Proof.
  intros Hid description wait.
  assert (check_body driver description d
          = match wait d with
            | (inl e, d') => (inl e, d')
            | (inr _, d') =>
                (inr (true, "Element with id '" +:+ id +:+ "' is visible."), d')
            end) as Hbody.
  { unfold check_body. change (classify description) with PageContainsElement.
    unfold check_element.
    assert (contains "'" description = true) as -> by done.
    change description
      with ("Page contains an element with id " +:+ String quote
              (id +:+ String quote rest)).
    rewrite split_before_separator by done.
    rewrite split_before_separator by done.
    unfold_M. cbn [lookup list_lookup]. unfold_M. cbn beta iota.
    fold wait. by destruct (wait d) as [[e|el] d']. }
  split.
  - intros element d' Hw. unfold run_check. by rewrite Hbody, Hw.
  - intros e d' Hw. unfold run_check. by rewrite Hbody, Hw.
Qed.

Lemma element_check_waits_for_stripped_id_witness :
  run_check (static_driver (inr sales_page)) plain_repr
    "Page contains an element with id '#total-sales' in the footer" sales_page
  = (mkCheckResult "Page contains an element with id '#total-sales' in the footer" true
       "Element with id '#total-sales' is visible.", sales_page).
Proof.
  destruct (@element_check_waits_for_stripped_id Page string
              (static_driver (inr sales_page)) plain_repr
              "#total-sales" " in the footer" sales_page eq_refl) as [Hok _].
  exact (Hok "total-sales" sales_page eq_refl).
Defined.

(** X3. For ["The text content of '<id>' <words> '<text>'"] (the words
    between the two quoted parts are free: "is", "remains"), the runner
    waits for the presence of the element whose id is [<id>] without its
    leading ['#'] characters and reads its text; the check passes if and
    only if that text is [<text>], and a failure names both texts. *)
Theorem text_check_compares_quoted_text
    {D E : Type} (driver : WebDriver D E) (py_repr : string -> string)
    (id words expected rest actual : string) (element : E) (d d1 d2 : D) :
  all_chars (fun a => negb (Ascii.eqb a quote)) id = true ->
  all_chars (fun a => negb (Ascii.eqb a quote)) words = true ->
  all_chars (fun a => negb (Ascii.eqb a quote)) expected = true ->
  until_presence_of_element_located driver 5 ID (lstrip hash id) d = (inr element, d1) ->
  text driver element d1 = (inr actual, d2) ->
  let description :=
    "The text content of '" +:+ id +:+ "'" +:+ words +:+ "'" +:+ expected +:+ "'"
    +:+ rest in
  run_check driver py_repr description d
  = (mkCheckResult description (String.eqb actual expected)
       (if String.eqb actual expected
        then "Element '" +:+ lstrip hash id +:+ "' has correct text: '"
             +:+ expected +:+ "'."
        else "Expected text '" +:+ expected +:+ "', but got '" +:+ actual +:+ "'."),
     d2)
  /\ (passed (run_check driver py_repr description d).1 = true <-> actual = expected).
Proof.
  intros Hid Hwords Hexp Hwait Htext description.
  assert (run_check driver py_repr description d
          = (mkCheckResult description (String.eqb actual expected)
               (if String.eqb actual expected
                then "Element '" +:+ lstrip hash id +:+ "' has correct text: '"
                     +:+ expected +:+ "'."
                else "Expected text '" +:+ expected +:+ "', but got '"
                     +:+ actual +:+ "'."), d2)) as Hrun.
  { unfold run_check, check_body. change (classify description) with TextContentOf.
    unfold check_text.
    change description
      with ("The text content of " +:+ String quote
              (id +:+ String quote (words +:+ String quote
                 (expected +:+ String quote rest)))).
    rewrite split_before_separator by done.
    rewrite !split_before_separator by done.
    unfold_M. cbn [lookup list_lookup]. unfold_M. cbn beta iota.
    rewrite Hwait, Htext. by destruct (String.eqb actual expected). }
  split; [exact Hrun|]. rewrite Hrun. simpl. apply String.eqb_eq.
Qed.

Lemma text_check_compares_quoted_text_witness :
  run_check (static_driver (inr sales_page)) plain_repr
    "The text content of '#total-sales' remains '650.75'" sales_page
  = (mkCheckResult "The text content of '#total-sales' remains '650.75'" true
       "Element 'total-sales' has correct text: '650.75'.", sales_page).
Proof.
  exact (proj1 (@text_check_compares_quoted_text Page string
                  (static_driver (inr sales_page)) plain_repr
                  "#total-sales" " remains " "650.75" EmptyString "650.75"
                  "total-sales" sales_page sales_page sales_page
                  eq_refl eq_refl eq_refl eq_refl eq_refl)).
Defined.

Lemma classify_element (s : string) :
  startswith "Page contains an element with id" s = true ->
  classify s = PageContainsElement.
Proof. intros [rest ->]%startswith_app. done. Qed.

Lemma classify_text (s : string) :
  startswith "The text content of" s = true -> classify s = TextContentOf.
Proof. intros [rest ->]%startswith_app. done. Qed.

Lemma split_length (c : ascii) (s : string) :
  length (split c s) = S (count_char c s).
Proof.
  unfold count_char. induction s as [|a s IH]; [done|].
  cbn [split list_ascii_of_string List.filter].
  rewrite (Ascii.eqb_sym c a). destruct (Ascii.eqb a c).
  - simpl. by rewrite IH.
  - destruct (split c s) as [|h t]; [done|]. exact IH.
Qed.

Lemma int_sign_keeps (q : ascii -> bool) (s : string) :
  all_chars q s = true -> all_chars q (int_sign s).2 = true.
Proof.
  destruct s as [|c r]; [done|]. intros H.
  assert (all_chars q r = true) as Hr
      by (unfold all_chars in *; simpl in H; by apply andb_prop in H as [_ ?]).
  destruct c as [[] [] [] [] [] [] [] []]; first [exact H | exact Hr].
Qed.

Lemma int_unsigned_no_digit (negative : bool) (s : string) :
  all_chars (fun a => negb (is_digit a)) s = true ->
  int_unsigned negative s = InvalidLiteral.
Proof.
  destruct s as [|c r]; [done|]. intros H.
  destruct c as [[] [] [] [] [] [] [] []];
    first [reflexivity | vm_compute in H; discriminate H].
Qed.

(** A word without a digit is no integer. *)
Lemma py_int_no_digit (word : string) :
  all_chars (fun a => negb (is_digit a)) word = true ->
  py_int word = InvalidLiteral.
Proof.
  intros H. unfold py_int.
  pose proof (int_sign_keeps _ _ (all_chars_lstrip _ is_int_space _ H)) as Hs.
  destruct (int_sign (lstrip is_int_space word)) as [negative s'].
  by apply int_unsigned_no_digit.
Qed.

(** X4. A description that takes a branch without the parts the branch
    reads fails inside that branch, before the browser is used, and the
    session is left as it was. An element check without a quote of either
    kind, a text check with fewer than three quote characters and a table
    check with fewer than four spaces fail on the index; a table check
    ["Table has at least <word> ..."] whose word has no digit fails on the
    conversion, with the message that names the word. *)
Theorem malformed_description_fails_before_browser
    {D E : Type} (driver : WebDriver D E) (py_repr : string -> string) (d : D) :
  (forall check_str,
      startswith "Page contains an element with id" check_str = true ->
      all_chars (fun a => negb (Ascii.eqb a quote)) check_str = true ->
      all_chars (fun a => negb (Ascii.eqb a dquote)) check_str = true ->
      run_check driver py_repr check_str d
      = (mkCheckResult check_str false "Check failed: list index out of range", d))
  /\ (forall check_str,
         startswith "The text content of" check_str = true ->
         (count_char quote check_str < 3)%nat ->
         run_check driver py_repr check_str d
         = (mkCheckResult check_str false "Check failed: list index out of range", d))
  /\ (forall check_str,
         classify check_str = TableHasAtLeast ->
         (count_char " " check_str < 4)%nat ->
         run_check driver py_repr check_str d
         = (mkCheckResult check_str false "Check failed: list index out of range", d))
  /\ (forall word rest,
         all_chars (fun a => negb (Ascii.eqb a " ")) word = true ->
         all_chars (fun a => negb (is_digit a)) word = true ->
         let description := "Table has at least " +:+ word +:+ " " +:+ rest in
         run_check driver py_repr description d
         = (mkCheckResult description false
              ("Check failed: invalid literal for int() with base 10: "
               +:+ py_repr word), d)).
Proof.
  split; [|split; [|split]].
  - intros check_str Hp Hq Hdq. unfold run_check, check_body.
    rewrite (classify_element _ Hp). unfold check_element.
    pose proof (contains_char_absent quote check_str Hq) as Hc.
    change (String quote EmptyString) with "'" in Hc. rewrite Hc.
    by rewrite (split_no_separator dquote check_str Hdq).
  - intros check_str Hp Hlen. unfold run_check, check_body.
    rewrite (classify_text _ Hp). unfold check_text. unfold_M.
    rewrite (proj2 (lookup_ge_None (split quote check_str) 3))
      by (rewrite split_length; lia).
    by destruct (split quote check_str !! 1%nat).
  - intros check_str Hk Hlen. unfold run_check, check_body. rewrite Hk.
    unfold check_table. unfold_M.
    by rewrite (proj2 (lookup_ge_None (split " " check_str) 4))
      by (rewrite split_length; lia).
  - intros word rest Hw Hnd description. unfold run_check, check_body.
    change (classify description) with TableHasAtLeast.
    unfold check_table. unfold_M. unfold description at 1.
    rewrite (split_table_description word rest Hw).
    cbn [lookup list_lookup]. unfold_M. cbn beta iota.
    by rewrite (py_int_no_digit word Hnd).
Qed.

Lemma malformed_description_fails_before_browser_witness :
  run_check (static_driver (inr sales_page)) plain_repr
    "Page contains an element with id total-sales" sales_page
  = (mkCheckResult "Page contains an element with id total-sales" false
       "Check failed: list index out of range", sales_page)
  /\ run_check (static_driver (inr sales_page)) plain_repr
       "The text content of '#total-sales' is 650.75" sales_page
     = (mkCheckResult "The text content of '#total-sales' is 650.75" false
          "Check failed: list index out of range", sales_page)
  /\ run_check (static_driver (inr sales_page)) plain_repr
       "Table has at least three data rows" sales_page
     = (mkCheckResult "Table has at least three data rows" false
          "Check failed: invalid literal for int() with base 10: 'three'", sales_page).
Proof.
  destruct (@malformed_description_fails_before_browser Page string
              (static_driver (inr sales_page)) plain_repr sales_page)
    as (Helement & Htext & _ & Hword).
  split; [|split].
  - exact (Helement "Page contains an element with id total-sales"
             eq_refl eq_refl eq_refl).
  - apply (Htext "The text content of '#total-sales' is 650.75" eq_refl).
    unfold count_char. simpl. lia.
  - exact (Hword "three" "data rows" eq_refl eq_refl).
Defined.


(** * Further properties of the orchestrator *)

Lemma known_fixture_pairs (test_case_id : string) (round_id : Z) :
  is_Some (known_fixture test_case_id round_id)
  <-> (test_case_id = "sales-report" \/ test_case_id = "github-user-info")
      /\ (round_id = 1 \/ round_id = 2).
Proof.
  unfold known_fixture, TEST_CASES. split.
  - intros [td H]. apply bind_Some in H as (rounds & Hf & Hr).
    apply lookup_insert_Some in Hf as [[<- <-]|[_ [<- <-]%lookup_singleton_Some]];
      (split; [auto|]);
      apply lookup_insert_Some in Hr as [[<- _]|[_ [<- _]%lookup_singleton_Some]];
      auto.
  - intros [[-> | ->] [-> | ->]]; by eexists.
Qed.

(** X6. A dispatch for anything but round 1 or 2 of ["sales-report"] or
    ["github-user-info"] is answered with a 404 before any call is made,
    and leaves the registry as it was; every dispatch for one of these
    four goes on to the outbound call. *)
Theorem start_test_rejects_unknown_fixture (SETTINGS : Settings)
    (test_case_id : string) (round_id now : Z) (DB : gmap string TaskEntry) :
  let known :=
    (test_case_id = "sales-report" \/ test_case_id = "github-user-info")
    /\ (round_id = 1 \/ round_id = 2) in
  (~ known ->
   start_test SETTINGS test_case_id round_id now DB
   = Finished (HTTPException 404 "Test case or round not found.") DB)
  /\ (known ->
      exists DB' payload resume,
        start_test SETTINGS test_case_id round_id now DB
        = AwaitPost DB' (STUDENT_API_ENDPOINT SETTINGS) payload resume
        /\ TaskRequest.round payload = round_id
        /\ TaskRequest.secret payload = SHARED_SECRET SETTINGS
        /\ TaskRequest.evaluation_url payload = EVALUATION_URL SETTINGS).
Proof.
  intros known. split.
  - intros Hn. apply start_test_unknown.
    destruct (known_fixture test_case_id round_id) eqn:Hk; [|done].
    destruct Hn. apply known_fixture_pairs. by eexists.
  - intros [td Hk]%known_fixture_pairs.
    rewrite (start_test_known _ _ _ _ _ _ Hk). by eexists _, _, _.
Qed.

Lemma start_test_rejects_unknown_fixture_witness :
  start_test local_settings "sales-report" 3 0 round1_sent
  = Finished (HTTPException 404 "Test case or round not found.") round1_sent.
Proof.
  apply (start_test_rejects_unknown_fixture local_settings "sales-report" 3 0
           round1_sent).
  intros [_ [?|?]]; lia.
Defined.

(** X7. The answer of the student API decides the outcome of a dispatch
    by one test, [status_code != 200]. On 200 the handler returns
    ["sent"] with the task id and the evaluation status stays
    ["pending"]; on any other code, the other 2xx codes included, the
    status becomes ["failed_to_send"]. Either way the code and the body of
    the answer are stored, and the stored payload carries the checks and
    the nonce of the fixture. *)
Theorem dispatch_answer_decides_status (SETTINGS : Settings)
    (test_case_id : string) (round_id now : Z) (DB : gmap string TaskEntry)
    (test_data : TestCase) (code : Z) (text : string) :
  known_fixture test_case_id round_id = Some test_data ->
  exists reply_ DB' entry,
    start_test_run SETTINGS test_case_id round_id now (Response code text) DB
    = (reply_, DB')
    /\ DB' !! tc_task test_data = Some entry
    /\ student_response_code entry = Some code
    /\ student_response_body entry = Some text
    /\ TaskRequest.checks (request entry) = tc_checks test_data
    /\ TaskRequest.nonce (request entry) = tc_nonce test_data
    /\ TaskRequest.task (request entry) = tc_task test_data
    /\ (code = 200 ->
        reply_ = Return [("status", "sent"); ("task_id", tc_task test_data)]
        /\ status (evaluation entry) = "pending")
    /\ (code <> 200 -> status (evaluation entry) = "failed_to_send")
    /\ (status (evaluation entry) = "failed_to_send" <-> code <> 200).
Proof.
  intros Hk. unfold start_test_run. rewrite (start_test_known _ _ _ _ _ _ Hk).
  unfold start_test_resume. rewrite lookup_insert_eq.
  destruct (Z.eqb_spec code 200) as [->|Hne]; simpl.
  - eexists _, _, _. split; [done|]. rewrite lookup_insert_eq.
    split; [done|]. simpl. repeat split; try done.
  - eexists _, _, _. split; [done|]. rewrite lookup_insert_eq.
    split; [done|]. simpl. repeat split; try done.
Qed.

Lemma dispatch_answer_decides_status_witness :
  exists DB' entry,
    (start_test_run local_settings "sales-report" 1 0 (Response 204 EmptyString) ∅).2
    = DB'
    /\ DB' !! "sales-report-a8b3d" = Some entry
    /\ status (evaluation entry) = "failed_to_send".
Proof.
  destruct (dispatch_answer_decides_status local_settings "sales-report" 1 0 ∅ _
              204 EmptyString eq_refl)
    as (r & DB' & entry & Hrun & Hl & _ & _ & _ & _ & _ & _ & Hfail & _).
  exists DB', entry. rewrite Hrun. split; [done|]. split; [exact Hl|].
  apply Hfail. lia.
Defined.

(** X8. A notification is accepted on its nonce and round alone, whatever
    the status of the record: sent again, it is answered as the first time
    and schedules the runner again, and the registry ends as if only the
    second had come. *)
Theorem notify_endpoint_repeated (submission : StudentSubmission.t) (t1 t2 : Z)
    (DB : gmap string TaskEntry) :
  notify_endpoint submission t2 (notify_endpoint submission t1 DB).1.2
  = notify_endpoint submission t2 DB.
Proof.
  unfold notify_endpoint.
  destruct (DB !! StudentSubmission.task submission) as [entry|] eqn:Hl;
    simpl; [|by rewrite Hl].
  destruct (negb (String.eqb (TaskRequest.nonce (request entry))
                    (StudentSubmission.nonce submission))
            || negb (TaskRequest.round (request entry)
                     =? StudentSubmission.round submission)) eqn:Hv;
    simpl; [by rewrite Hl, Hv|].
  rewrite lookup_insert_eq. simpl. rewrite Hv. by rewrite insert_insert_eq.
Qed.

(** X9. A re-evaluation asked twice in a row is answered the same way
    twice, and the registry ends as if only the second had been asked. *)
Theorem re_evaluate_repeated (task_id : string) (t1 t2 : Z)
    (DB : gmap string TaskEntry) :
  re_evaluate task_id t2 (re_evaluate task_id t1 DB).1.2
  = re_evaluate task_id t2 DB.
Proof.
  unfold re_evaluate.
  destruct (DB !! task_id) as [entry|] eqn:Hl; simpl; [|by rewrite Hl].
  destruct (submission_data (evaluation entry)) as [submission|] eqn:Hs;
    simpl; [|by rewrite Hl, Hs].
  destruct (String.eqb (StudentSubmission.pages_url submission) EmptyString) eqn:Hu;
    simpl; [by rewrite Hl, Hs, Hu|].
  rewrite lookup_insert_eq. simpl. rewrite Hu. by rewrite insert_insert_eq.
Qed.

(** X10. After a notification has been accepted, a re-evaluation of the
    task schedules the very task the notification scheduled, provided the
    submitted page URL is not empty. The notification endpoint does not
    look at the URL: a submission with an empty one is accepted and the
    runner scheduled on it, and it is the re-evaluation that is then
    refused. *)
Theorem re_evaluate_after_notify (submission : StudentSubmission.t) (t1 t2 : Z)
    (DB : gmap string TaskEntry) (entry : TaskEntry) :
  DB !! StudentSubmission.task submission = Some entry ->
  TaskRequest.nonce (request entry) = StudentSubmission.nonce submission ->
  TaskRequest.round (request entry) = StudentSubmission.round submission ->
  let task_id := StudentSubmission.task submission in
  let notified := notify_endpoint submission t1 DB in
  let scheduled :=
    [mkBackgroundTask (StudentSubmission.pages_url submission)
       (TaskRequest.checks (request entry)) task_id] in
  notified.2 = scheduled
  /\ (StudentSubmission.pages_url submission <> EmptyString ->
      re_evaluate task_id t2 notified.1.2
      = (Return [("status", "accepted"); ("detail", "Re-evaluation started.")],
         <[task_id :=
             set_evaluation
               (mkEvaluationResult "re-evaluating" (Some t2) (Some submission) None [])
               entry]> DB,
         scheduled))
  /\ (StudentSubmission.pages_url submission = EmptyString ->
      re_evaluate task_id t2 notified.1.2
      = (HTTPException 400 "Submission does not include a pages_url.",
         notified.1.2, [])).
Proof.
  intros Hl Hn Hr task_id notified scheduled.
  assert (notified
          = (Return [("status", "accepted"); ("detail", "Evaluation has started.")],
             <[task_id :=
                 set_evaluation
                   (mkEvaluationResult "evaluating" (Some t1) (Some submission)
                      (evaluation_completed_at (evaluation entry))
                      (check_results (evaluation entry))) entry]> DB,
             scheduled)) as ->.
  { unfold notified, notify_endpoint, scheduled, task_id. rewrite Hl.
    by rewrite Hn, Hr, String.eqb_refl, Z.eqb_refl. }
  split; [done|]. simpl. unfold re_evaluate. rewrite lookup_insert_eq. simpl.
  split.
  - intros Hu.
    destruct (String.eqb_spec (StudentSubmission.pages_url submission) EmptyString);
      [done|].
    by rewrite insert_insert_eq.
  - by intros ->.
Qed.

Lemma re_evaluate_after_notify_witness :
  (notify_endpoint blank_submission 20 round1_sent).2
  = [mkBackgroundTask EmptyString ["Page title is 'Sales Summary'"]
       "sales-report-a8b3d"]
  /\ (re_evaluate "sales-report-a8b3d" 30
        (notify_endpoint blank_submission 20 round1_sent).1.2).1.1
     = HTTPException 400 "Submission does not include a pages_url.".
Proof.
  destruct (re_evaluate_after_notify blank_submission 20 30 round1_sent _
              eq_refl eq_refl eq_refl) as (Hs & _ & Hblank).
  split; [exact Hs|]. exact (f_equal (fun x => x.1.1) (Hblank eq_refl)).
Defined.

(** X11. [run_evaluation_checks] does not look at the status of the
    record it completes, so of two runs that end for one task the later
    one wins: the registry is as if the earlier had never ended. A run for
    a task id that the registry does not hold changes nothing. *)
Theorem run_evaluation_checks_last_write_wins
    (json_loads : string -> option json)
    (CheckResult_of : json -> string + CheckResult)
    (not_iterable : json -> string)
    (task_id : string) (url1 url2 : string) (checks1 checks2 : list string)
    (process1 process2 : subprocess_outcome) (t1 t2 : Z)
    (DB : gmap string TaskEntry) :
  run_evaluation_checks json_loads CheckResult_of not_iterable
    url2 checks2 task_id process2 t2
    (run_evaluation_checks json_loads CheckResult_of not_iterable
       url1 checks1 task_id process1 t1 DB)
  = run_evaluation_checks json_loads CheckResult_of not_iterable
      url2 checks2 task_id process2 t2 DB
  /\ (DB !! task_id = None ->
      run_evaluation_checks json_loads CheckResult_of not_iterable
        url1 checks1 task_id process1 t1 DB = DB).
Proof.
  unfold run_evaluation_checks. split.
  - destruct (DB !! task_id) as [entry|] eqn:Hl; [|by rewrite Hl].
    rewrite lookup_insert_eq. simpl. by rewrite insert_insert_eq.
  - by intros ->.
Qed.

Lemma run_evaluation_checks_last_write_wins_witness :
  run_evaluation_checks no_json no_model no_iteration
    "https://student.github.io/sales/" ["Page title is 'Sales Summary'"]
    "no-such-task" (CompletedProcess 1 EmptyString "Traceback") 30 round1_sent
  = round1_sent.
Proof.
  apply (run_evaluation_checks_last_write_wins no_json no_model no_iteration
           "no-such-task" "https://student.github.io/sales/"
           "https://student.github.io/sales/" ["Page title is 'Sales Summary'"]
           ["Page title is 'Sales Summary'"]
           (CompletedProcess 1 EmptyString "Traceback")
           (CompletedProcess 1 EmptyString "Traceback") 30 30 round1_sent).
  reflexivity.
Defined.

(** X12. The three steps of an evaluation compose. After a dispatch
    answered with 200, a notification that carries the task id, the nonce
    and the round of the fixture is accepted and schedules the runner on
    the submitted page with the checks of the fixture; when that run ends,
    the record holds the dispatched payload, the answer of the student
    API, the submission with its time, the status ["completed"] with its
    time, and the results of the run. *)
Theorem dispatch_notify_evaluate (SETTINGS : Settings)
    (json_loads : string -> option json)
    (CheckResult_of : json -> string + CheckResult)
    (not_iterable : json -> string)
    (test_case_id : string) (round_id : Z) (test_data : TestCase)
    (t0 t1 t2 : Z) (text : string) (submission : StudentSubmission.t)
    (process : subprocess_outcome) (DB : gmap string TaskEntry) :
  known_fixture test_case_id round_id = Some test_data ->
  StudentSubmission.task submission = tc_task test_data ->
  StudentSubmission.nonce submission = tc_nonce test_data ->
  StudentSubmission.round submission = round_id ->
  let dispatched :=
    (start_test_run SETTINGS test_case_id round_id t0 (Response 200 text) DB).2 in
  let notified := notify_endpoint submission t1 dispatched in
  let scheduled :=
    mkBackgroundTask (StudentSubmission.pages_url submission) (tc_checks test_data)
      (tc_task test_data) in
  notified.1.1 = Return [("status", "accepted"); ("detail", "Evaluation has started.")]
  /\ notified.2 = [scheduled]
  /\ run_background json_loads CheckResult_of not_iterable scheduled process t2
       notified.1.2 !! tc_task test_data
     = Some (mkTaskEntry (payload_for SETTINGS round_id test_data) t0
               (Some 200) (Some text)
               (mkEvaluationResult "completed" (Some t1) (Some submission) (Some t2)
                  (evaluation_results json_loads CheckResult_of not_iterable
                     (StudentSubmission.pages_url submission) (tc_checks test_data)
                     (tc_task test_data) process))).
Proof.
  intros Hk Htask Hnonce Hround dispatched notified scheduled.
  assert (dispatched
          = <[tc_task test_data :=
                set_response 200 text (fresh_entry SETTINGS round_id test_data t0)]>
              (<[tc_task test_data := fresh_entry SETTINGS round_id test_data t0]> DB))
    as Hd.
  { unfold dispatched, start_test_run. rewrite (start_test_known _ _ _ _ _ _ Hk).
    unfold start_test_resume. by rewrite lookup_insert_eq. }
  assert (notified
          = (Return [("status", "accepted"); ("detail", "Evaluation has started.")],
             <[tc_task test_data :=
                 set_evaluation
                   (mkEvaluationResult "evaluating" (Some t1) (Some submission) None [])
                   (set_response 200 text (fresh_entry SETTINGS round_id test_data t0))]>
               dispatched,
             [scheduled])) as ->.
  { unfold notified, notify_endpoint. rewrite Htask, Hd, lookup_insert_eq. simpl.
    by rewrite Hnonce, Hround, String.eqb_refl, Z.eqb_refl. }
  split; [done|]. split; [done|]. simpl.
  unfold run_background, run_evaluation_checks. simpl.
  rewrite lookup_insert_eq. simpl. by rewrite lookup_insert_eq.
Qed.

Lemma dispatch_notify_evaluate_witness :
  exists entry,
    run_background no_json no_model no_iteration
      (mkBackgroundTask "https://student.github.io/sales/"
         ["Page title is 'Sales Summary'";
          "Page contains an element with id '#total-sales'";
          "The text content of '#total-sales' is '650.75'"] "sales-report-a8b3d")
      (CompletedProcess 1 EmptyString "Traceback") 30
      (notify_endpoint (sales_submission "nonce-1a2b-3c4d") 20
         (start_test_run local_settings "sales-report" 1 10 (Response 200 "ok") ∅).2).1.2
    !! "sales-report-a8b3d" = Some entry
    /\ status (evaluation entry) = "completed"
    /\ length (check_results (evaluation entry)) = 3%nat.
Proof.
  destruct (dispatch_notify_evaluate local_settings no_json no_model no_iteration
              "sales-report" 1 _ 10 20 30 "ok" (sales_submission "nonce-1a2b-3c4d")
              (CompletedProcess 1 EmptyString "Traceback") ∅
              eq_refl eq_refl eq_refl eq_refl) as (_ & _ & H).
  eexists. split; [exact H|]. by split.
Defined.

(** X13. A run completes whatever record is under its task id when it
    ends. The rounds of a fixture share their id, so when a round has been
    dispatched (and answered with 200) since the run was scheduled, it is
    the record of that dispatch that is marked ["completed"]: it gets the
    results of the run, for the checks of the run, and still has no
    submission. *)
Theorem stale_run_completes_new_dispatch (SETTINGS : Settings)
    (json_loads : string -> option json)
    (CheckResult_of : json -> string + CheckResult)
    (not_iterable : json -> string)
    (test_case_id : string) (round_id : Z) (test_data : TestCase)
    (t0 t1 : Z) (text pages_url : string) (checks : list string)
    (process : subprocess_outcome) (DB : gmap string TaskEntry) :
  known_fixture test_case_id round_id = Some test_data ->
  run_evaluation_checks json_loads CheckResult_of not_iterable
    pages_url checks (tc_task test_data) process t1
    (start_test_run SETTINGS test_case_id round_id t0 (Response 200 text) DB).2
  !! tc_task test_data
  = Some (mkTaskEntry (payload_for SETTINGS round_id test_data) t0
            (Some 200) (Some text)
            (mkEvaluationResult "completed" None None (Some t1)
               (evaluation_results json_loads CheckResult_of not_iterable
                  pages_url checks (tc_task test_data) process))).
Proof.
  intros Hk. unfold start_test_run. rewrite (start_test_known _ _ _ _ _ _ Hk).
  unfold start_test_resume. rewrite lookup_insert_eq. simpl.
  unfold run_evaluation_checks. rewrite lookup_insert_eq. simpl.
  by rewrite lookup_insert_eq.
Qed.

Lemma stale_run_completes_new_dispatch_witness :
  exists entry,
    run_evaluation_checks no_json no_model no_iteration
      "https://student.github.io/sales/" ["Page title is 'Sales Summary'"]
      "sales-report-a8b3d" (CompletedProcess 1 EmptyString "Traceback") 50
      (start_test_run local_settings "sales-report" 2 40 (Response 200 "ok")
         round1_evaluated).2
    !! "sales-report-a8b3d" = Some entry
    /\ TaskRequest.round (request entry) = 2
    /\ status (evaluation entry) = "completed"
    /\ submission_data (evaluation entry) = None
    /\ check <$> check_results (evaluation entry) = ["Page title is 'Sales Summary'"].
Proof.
  eexists. split.
  - exact (stale_run_completes_new_dispatch local_settings no_json no_model
             no_iteration "sales-report" 2 _ 40 50 "ok"
             "https://student.github.io/sales/" ["Page title is 'Sales Summary'"]
             (CompletedProcess 1 EmptyString "Traceback") round1_evaluated eq_refl).
  - by repeat split.
Defined.

Lemma convert_all_inr (CheckResult_of : json -> string + CheckResult)
    (items : list json) (results : list CheckResult) :
  convert_all CheckResult_of items = inr results
  <-> Forall2 (fun item r => CheckResult_of item = inr r) items results.
Proof.
  revert results. induction items as [|item items IH]; intros results; simpl.
  - split.
    + intros [= <-]. constructor.
    + by intros ->%Forall2_nil_inv_l.
  - split.
    + destruct (CheckResult_of item) as [e|r] eqn:Hi; [done|].
      destruct (convert_all CheckResult_of items) as [e|rs] eqn:Hc; [done|].
      intros [= <-]. constructor; [done|]. by apply IH.
    + intros (r & rs & Hi & Hrest & ->)%Forall2_cons_inv_l.
      rewrite Hi. apply IH in Hrest. by rewrite Hrest.
Qed.

Lemma convert_all_first_error (CheckResult_of : json -> string + CheckResult)
    (before after : list json) (item : json) (e : string) :
  Forall (fun i => exists r, CheckResult_of i = inr r) before ->
  CheckResult_of item = inl e ->
  convert_all CheckResult_of (before ++ item :: after)%list = inl e.
Proof.
  intros Hbefore Hitem. induction Hbefore as [|i before [r Hi] _ IH]; simpl.
  - by rewrite Hitem.
  - by rewrite Hi, IH.
Qed.

(** X14. When the runner exits with code 0 and prints a JSON list, the
    list is taken whole or not at all. If every item makes a
    [CheckResult], the results are these models, in the order of the list
    and as many as the list has, whatever the checks of the task are: an
    empty list gives no results. If some item does not, no item of the
    output is kept: every check of the task gets a result with
    [passed = False] and the detail ["Major Selenium failure for task ..."]
    that ends with the text of the error of the first such item. *)
Theorem runner_output_all_or_nothing
    (json_loads : string -> option json)
    (CheckResult_of : json -> string + CheckResult)
    (not_iterable : json -> string)
    (pages_url : string) (checks : list string) (task_id : string)
    (stdout stderr : string) (items : list json) :
  json_loads stdout = Some (JArray items) ->
  let results :=
    evaluation_results json_loads CheckResult_of not_iterable
      pages_url checks task_id (CompletedProcess 0 stdout stderr) in
  (forall models,
      Forall2 (fun item r => CheckResult_of item = inr r) items models ->
      results = models /\ length results = length items)
  /\ (items = [] -> results = [])
  /\ (forall before item after e,
         items = (before ++ item :: after)%list ->
         Forall (fun i => exists r, CheckResult_of i = inr r) before ->
         CheckResult_of item = inl e ->
         check <$> results = checks
         /\ forall r,
              r ∈ results ->
              passed r = false
              /\ details r = "Major Selenium failure for task " +:+ task_id
                             +:+ " at URL " +:+ pages_url +:+ ": " +:+ e).
Proof.
  intros Hj results. unfold results, evaluation_results. simpl.
  rewrite Hj. unfold parse_results. simpl.
  split; [|split].
  - intros models Hall. pose proof Hall as Hlen%Forall2_length.
    apply convert_all_inr in Hall. by rewrite Hall.
  - by intros ->.
  - intros before item after e -> Hbefore Hitem.
    rewrite (convert_all_first_error _ _ _ _ _ Hbefore Hitem).
    split; [apply all_failed_checks|].
    intros r Hr%all_failed_elem. by rewrite Hr.
Qed.

Lemma runner_output_all_or_nothing_witness :
  evaluation_results printed_results model_of_json no_iteration
    "https://student.github.io/sales/" ["Page title is 'Sales Summary'"]
    "sales-report-a8b3d" (CompletedProcess 0 "[...]" EmptyString)
  = mixed_results
  /\ Forall
       (fun r =>
          passed r = false
          /\ details r = "Major Selenium failure for task sales-report-a8b3d at URL https://student.github.io/sales/: validation error")
       (evaluation_results
          (fun _ => Some (JArray [result_json (mkCheckResult "a" true "fine");
                                  JNull; JBool true]))
          model_of_json no_iteration "https://student.github.io/sales/"
          ["Page title is 'Sales Summary'"] "sales-report-a8b3d"
          (CompletedProcess 0 "[...]" EmptyString)).
Proof.
  split.
  - apply (runner_output_all_or_nothing printed_results model_of_json no_iteration
             "https://student.github.io/sales/" ["Page title is 'Sales Summary'"]
             "sales-report-a8b3d" "[...]" EmptyString (result_json <$> mixed_results)
             eq_refl).
    repeat constructor.
  - destruct (runner_output_all_or_nothing
                (fun _ => Some (JArray [result_json (mkCheckResult "a" true "fine");
                                        JNull; JBool true]))
                model_of_json no_iteration "https://student.github.io/sales/"
                ["Page title is 'Sales Summary'"] "sales-report-a8b3d" "[...]"
                EmptyString _ eq_refl) as (_ & _ & Hbad).
    destruct (Hbad [result_json (mkCheckResult "a" true "fine")] JNull [JBool true]
                "validation error" eq_refl) as [_ Hall];
      [|reflexivity|apply Forall_forall; exact Hall].
    constructor; [by eexists|constructor].
Defined.

Section RegistryFacts.
Variable SETTINGS : Settings.
Variable json_loads : string -> option json.
Variable CheckResult_of : json -> string + CheckResult.
Variable not_iterable : json -> string.

Lemma fresh_entry_ok (test_case_id : string) (round_id now : Z)
    (test_data : TestCase) :
  known_fixture test_case_id round_id = Some test_data ->
  record_ok SETTINGS (tc_task test_data) (fresh_entry SETTINGS round_id test_data now).
Proof.
  intros Hk. unfold record_ok. simpl.
  split; [done|]. split; [by exists test_case_id, test_data|].
  split; [status_in|]. split; [done|]. split; [|done].
  by intros [?|?].
Qed.

Lemma answered_ok (task_id : string) (outcome : post_outcome)
    (DB : gmap string TaskEntry) :
  registry_ok SETTINGS DB ->
  registry_ok SETTINGS (start_test_resume task_id outcome DB).2.
Proof.
  intros Hok. unfold start_test_resume.
  destruct outcome as [code text|msg|what]; [| |done];
    (destruct (DB !! task_id) as [entry|] eqn:Hl; [|done]);
    destruct (Hok _ _ Hl) as (H1 & H2 & H3 & H4 & H5 & H6).
  - destruct (negb (code =? 200)); simpl;
      (apply map_Forall_insert_2; [|done]); unfold record_ok; simpl.
    + split; [done|]. split; [done|]. split; [status_in|]. split; [done|].
      by split; [intros [?|?]|].
    + done.
  - simpl. apply map_Forall_insert_2; [|done]. unfold record_ok. simpl.
    split; [done|]. split; [done|]. split; [status_in|]. split; [done|].
    by split; [intros [?|?]|].
Qed.

Lemma notified_ok (submission : StudentSubmission.t) (now : Z)
    (DB : gmap string TaskEntry) :
  registry_ok SETTINGS DB ->
  registry_ok SETTINGS (notify_endpoint submission now DB).1.2.
Proof.
  intros Hok. unfold notify_endpoint.
  destruct (DB !! StudentSubmission.task submission) as [entry|] eqn:Hl; [|done].
  destruct (String.eqb_spec (TaskRequest.nonce (request entry))
              (StudentSubmission.nonce submission)) as [Hn|]; [|done].
  destruct (Z.eqb_spec (TaskRequest.round (request entry))
              (StudentSubmission.round submission)) as [Hr|]; [|done].
  simpl. apply map_Forall_insert_2; [|done].
  destruct (Hok _ _ Hl) as (H1 & H2 & _).
  unfold record_ok. simpl.
  split; [done|]. split; [done|]. split; [status_in|].
  split; [by intros ? [= <-]|]. by split.
Qed.

Lemma re_evaluated_ok (task_id : string) (now : Z) (DB : gmap string TaskEntry) :
  registry_ok SETTINGS DB ->
  registry_ok SETTINGS (re_evaluate task_id now DB).1.2.
Proof.
  intros Hok. unfold re_evaluate.
  destruct (DB !! task_id) as [entry|] eqn:Hl; [|done].
  destruct (submission_data (evaluation entry)) as [submission|] eqn:Hs; [|done].
  destruct (String.eqb (StudentSubmission.pages_url submission) EmptyString); [done|].
  simpl. apply map_Forall_insert_2; [|done].
  destruct (Hok _ _ Hl) as (H1 & H2 & _ & H4 & _).
  unfold record_ok. simpl.
  split; [done|]. split; [done|]. split; [status_in|].
  split; [by intros ? [= <-]; apply H4|]. by split.
Qed.

Lemma evaluated_ok (pages_url : string) (checks : list string) (task_id : string)
    (process : subprocess_outcome) (now : Z) (DB : gmap string TaskEntry) :
  registry_ok SETTINGS DB ->
  registry_ok SETTINGS
    (run_evaluation_checks json_loads CheckResult_of not_iterable
       pages_url checks task_id process now DB).
Proof.
  intros Hok. unfold run_evaluation_checks.
  destruct (DB !! task_id) as [entry|] eqn:Hl; [|done].
  apply map_Forall_insert_2; [|done].
  destruct (Hok _ _ Hl) as (H1 & H2 & _ & H4 & _).
  unfold record_ok. simpl.
  split; [done|]. split; [done|]. split; [status_in|].
  split; [done|]. by split; [intros [?|?]|].
Qed.

Lemma apply_event_ok (ev : event) (DB : gmap string TaskEntry) :
  registry_ok SETTINGS DB ->
  registry_ok SETTINGS
    (apply_event SETTINGS json_loads CheckResult_of not_iterable ev DB).
Proof.
  intros Hok. destruct ev; simpl.
  - destruct (known_fixture test_case_id round_id) as [td|] eqn:Hk.
    + rewrite (start_test_known _ _ _ _ _ _ Hk).
      apply map_Forall_insert_2; [|done]. by eapply fresh_entry_ok.
    + by rewrite (start_test_unknown _ _ _ _ _ Hk).
  - by apply answered_ok.
  - by apply notified_ok.
  - by apply re_evaluated_ok.
  - by apply evaluated_ok.
Qed.
End RegistryFacts.

(** X15. Whatever dispatches, answers of the student API, notifications,
    re-evaluations and ends of runs the registry has gone through since it
    was empty, in whatever order, every record in it is filed under the
    task id of its payload, carries the payload of a round of a fixture,
    has one of the five statuses, holds no submission but one for its own
    task id, nonce and round, has a submission when it is ["evaluating"]
    or ["re-evaluating"], and has neither submission, times nor results
    while it is ["pending"]. *)
Theorem registry_invariant (SETTINGS : Settings)
    (json_loads : string -> option json)
    (CheckResult_of : json -> string + CheckResult)
    (not_iterable : json -> string)
    (evs : list event) (task_id : string) (entry : TaskEntry) :
  apply_events SETTINGS json_loads CheckResult_of not_iterable evs ∅ !! task_id
  = Some entry ->
  record_ok SETTINGS task_id entry.
Proof.
  assert (forall DB,
             registry_ok SETTINGS DB ->
             registry_ok SETTINGS
               (apply_events SETTINGS json_loads CheckResult_of not_iterable evs DB))
    as Hall.
  { unfold apply_events. induction evs as [|ev evs IH]; intros DB Hok; [done|].
    simpl. apply IH. by apply apply_event_ok. }
  intros Hl. exact (Hall ∅ (map_Forall_empty _) _ _ Hl).
Qed.

Lemma registry_invariant_witness :
  record_ok local_settings "sales-report-a8b3d"
    (mkTaskEntry
       (payload_for local_settings 1
          (mkTestCase "sales-report-a8b3d" "nonce-1a2b-3c4d"
             "Create a single-page site that processes an attached CSV file named 'sales.csv'. Calculate the sum of the 'sales' column and display the total inside an HTML element with the id '#total-sales'. The page title must be 'Sales Summary'."
             [ "Page title is 'Sales Summary'";
               "Page contains an element with id '#total-sales'";
               "The text content of '#total-sales' is '650.75'" ]
             [ sales_csv ]))
       10 (Some 200) (Some "ok")
       (mkEvaluationResult "evaluating" (Some 20)
          (Some (sales_submission "nonce-1a2b-3c4d")) None [])).
Proof.
  apply (registry_invariant local_settings no_json no_model no_iteration
           [Dispatched "sales-report" 1 10;
            Answered "sales-report-a8b3d" (Response 200 "ok");
            Notified (sales_submission "nonce-1a2b-3c4d") 20]).
  reflexivity.
Defined.

Section EventShape.
Variable SETTINGS : Settings.
Variable json_loads : string -> option json.
Variable CheckResult_of : json -> string + CheckResult.
Variable not_iterable : json -> string.

(** An event leaves the registry as it is or writes one record; unless it
    is a dispatch, the record was there and keeps its payload and the
    time of its dispatch. *)
Lemma apply_event_shape (ev : event) (DB : gmap string TaskEntry) :
  apply_event SETTINGS json_loads CheckResult_of not_iterable ev DB = DB
  \/ exists key entry',
       apply_event SETTINGS json_loads CheckResult_of not_iterable ev DB
       = <[key := entry']> DB
       /\ ((forall test_case_id round_id now,
               ev <> Dispatched test_case_id round_id now) ->
           exists entry,
             DB !! key = Some entry
             /\ request entry' = request entry /\ sent_at entry' = sent_at entry).
Proof.
  destruct ev; simpl.
  - destruct (known_fixture test_case_id round_id) as [td|] eqn:Hk.
    + rewrite (start_test_known _ _ _ _ _ _ Hk). right.
      eexists _, _. split; [done|]. intros Hne. by destruct (Hne test_case_id round_id now).
    + rewrite (start_test_unknown _ _ _ _ _ Hk). by left.
  - unfold start_test_resume.
    destruct outcome as [code text|msg|what]; [| |by left];
      (destruct (DB !! task_id) as [entry|] eqn:Hl; [|by left]).
    + right. destruct (negb (code =? 200)); simpl;
        eexists _, _; (split; [done|]); intros _; by exists entry.
    + right. simpl. eexists _, _. split; [done|]. intros _. by exists entry.
  - unfold notify_endpoint.
    destruct (DB !! StudentSubmission.task submission) as [entry|] eqn:Hl; [|by left].
    destruct (negb _ || negb _); [by left|]. right. simpl.
    eexists _, _. split; [done|]. intros _. by exists entry.
  - unfold re_evaluate.
    destruct (DB !! task_id) as [entry|] eqn:Hl; [|by left].
    destruct (submission_data (evaluation entry)); [|by left].
    destruct (String.eqb _ _); [by left|]. right. simpl.
    eexists _, _. split; [done|]. intros _. by exists entry.
  - unfold run_evaluation_checks.
    destruct (DB !! task_id) as [entry|] eqn:Hl; [|by left]. right.
    eexists _, _. split; [done|]. intros _. by exists entry.
Qed.
End EventShape.

(** X16. No record ever leaves the registry: a task id that is held
    stays held through any sequence of events. One event writes at most one
    record and leaves all others as they are. A record found after an
    event that is not a dispatch was there before it, with the same
    payload and the same dispatch time: only a dispatch adds a record or
    changes what was dispatched. *)
Theorem registry_events_frame (SETTINGS : Settings)
    (json_loads : string -> option json)
    (CheckResult_of : json -> string + CheckResult)
    (not_iterable : json -> string) :
  let step := apply_event SETTINGS json_loads CheckResult_of not_iterable in
  (forall evs (DB : gmap string TaskEntry) (k : string),
      is_Some (DB !! k) ->
      is_Some (apply_events SETTINGS json_loads CheckResult_of not_iterable evs DB !! k))
  /\ (forall ev (DB : gmap string TaskEntry),
         exists key, forall k, k <> key -> step ev DB !! k = DB !! k)
  /\ (forall ev (DB : gmap string TaskEntry) (k : string) entry',
         (forall test_case_id round_id now,
             ev <> Dispatched test_case_id round_id now) ->
         step ev DB !! k = Some entry' ->
         exists entry,
           DB !! k = Some entry
           /\ request entry' = request entry /\ sent_at entry' = sent_at entry).
Proof.
  intros step. split; [|split].
  - intros evs. unfold apply_events.
    induction evs as [|ev evs IH]; intros DB k Hk; [done|].
    simpl. apply IH.
    destruct (apply_event_shape SETTINGS json_loads CheckResult_of not_iterable ev DB)
      as [->|(key & e' & -> & _)]; [done|].
    destruct (decide (key = k)) as [->|Hne].
    + by rewrite lookup_insert_eq.
    + by rewrite lookup_insert_ne.
  - intros ev DB. unfold step.
    destruct (apply_event_shape SETTINGS json_loads CheckResult_of not_iterable ev DB)
      as [->|(key & e' & -> & _)].
    + by exists EmptyString.
    + exists key. intros k Hne. by rewrite lookup_insert_ne.
  - intros ev DB k entry' Hnd. unfold step.
    destruct (apply_event_shape SETTINGS json_loads CheckResult_of not_iterable ev DB)
      as [->|(key & e' & -> & Hkeep)].
    + intros Hl. by exists entry'.
    + destruct (Hkeep Hnd) as (entry & Hl & Hr & Hs).
      destruct (decide (key = k)) as [->|Hne].
      * rewrite lookup_insert_eq. intros [= <-]. by exists entry.
      * rewrite lookup_insert_ne by done. intros Hl'. by exists entry'.
Qed.

Lemma registry_events_frame_witness :
  is_Some
    (apply_events local_settings no_json no_model no_iteration
       [Dispatched "github-user-info" 1 40;
        ReEvaluated "sales-report-a8b3d" 50;
        Evaluated "https://student.github.io/sales/" [] "sales-report-a8b3d"
          (SpawnRaised "no python") 60]
       round1_evaluated !! "sales-report-a8b3d").
Proof.
  apply (registry_events_frame local_settings no_json no_model no_iteration).
  by eexists.
Defined.

Section RegistryReach.
Variable SETTINGS : Settings.
Variable json_loads : string -> option json.
Variable CheckResult_of : json -> string + CheckResult.
Variable not_iterable : json -> string.

Lemma apply_events_ok (evs : list event) (DB : gmap string TaskEntry) :
  registry_ok SETTINGS DB ->
  registry_ok SETTINGS
    (apply_events SETTINGS json_loads CheckResult_of not_iterable evs DB).
Proof.
  unfold apply_events. revert DB.
  induction evs as [|ev evs IH]; intros DB Hok; [done|].
  simpl. apply IH. by apply apply_event_ok.
Qed.

Lemma known_fixture_task (test_case_id : string) (round_id : Z)
    (test_data : TestCase) :
  known_fixture test_case_id round_id = Some test_data ->
  tc_task test_data = "sales-report-a8b3d"
  \/ tc_task test_data = "github-user-info-c7e4f".
Proof.
  unfold known_fixture, TEST_CASES. intros H.
  apply bind_Some in H as (rounds & Hf & Hr).
  apply lookup_insert_Some in Hf as [[_ <-]|[_ [_ <-]%lookup_singleton_Some]];
    apply lookup_insert_Some in Hr as [[_ <-]|[_ [_ <-]%lookup_singleton_Some]];
    auto.
Qed.
End RegistryReach.

(** X17. Starting from an empty registry, whatever the events, the
    registry never holds a record under an id other than the task ids of
    the two fixtures, so it never holds more than two records, and the
    results query answers 404 for every other id. *)
Theorem registry_holds_fixture_tasks_only (SETTINGS : Settings)
    (json_loads : string -> option json)
    (CheckResult_of : json -> string + CheckResult)
    (not_iterable : json -> string) (evs : list event) :
  let DB := apply_events SETTINGS json_loads CheckResult_of not_iterable evs ∅ in
  dom DB ⊆ ({[ "sales-report-a8b3d"; "github-user-info-c7e4f" ]} : gset string)
  /\ (size (get_all_results DB) <= 2)%nat
  /\ (forall task_id,
         task_id <> "sales-report-a8b3d" ->
         task_id <> "github-user-info-c7e4f" ->
         get_task_result task_id DB = HTTPException 404 "Task ID not found.").
Proof.
  intros DB.
  assert (dom DB ⊆ ({[ "sales-report-a8b3d"; "github-user-info-c7e4f" ]} : gset string))
    as Hdom.
  { intros k [entry Hl]%elem_of_dom.
    destruct (apply_events_ok SETTINGS json_loads CheckResult_of not_iterable evs ∅
                (map_Forall_empty _) _ _ Hl) as (Hk & (tc & td & Hf & Hreq) & _).
    rewrite Hreq in Hk. simpl in Hk. subst k.
    destruct (known_fixture_task _ _ _ Hf) as [-> | ->]; set_solver. }
  split; [exact Hdom|]. split.
  - unfold get_all_results. rewrite <- size_dom.
    etransitivity; [apply (subseteq_size _ _ Hdom)|].
    rewrite size_union by set_solver. by rewrite !size_singleton.
  - intros task_id H1 H2. unfold get_task_result.
    destruct (DB !! task_id) as [entry|] eqn:Hl; [|done].
    assert (task_id ∈ dom DB) as Hin by (apply elem_of_dom; eauto).
    apply Hdom in Hin.
    apply elem_of_union in Hin as [Hin|Hin]; by apply elem_of_singleton in Hin.
Qed.

Lemma registry_holds_fixture_tasks_only_witness :
  get_task_result "sales-report"
    (apply_events local_settings no_json no_model no_iteration
       [Dispatched "sales-report" 1 10;
        Answered "sales-report-a8b3d" (Response 200 "ok")] ∅)
  = HTTPException 404 "Task ID not found.".
Proof.
  apply (registry_holds_fixture_tasks_only local_settings no_json no_model
           no_iteration); discriminate.
Defined.

(** ** The origins of the CORS middleware *)

Lemma lstrip_head (p : ascii -> bool) (s : string) :
  lstrip p s = EmptyString
  \/ exists a r, lstrip p s = String a r /\ p a = false.
Proof.
  induction s as [|a s IH]; simpl; [by left|].
  destruct (p a) eqn:Ha; [done|]. right. by exists a, s.
Qed.

Lemma rstrip_rstrip (p : ascii -> bool) (s : string) :
  rstrip p (rstrip p s) = rstrip p s.
Proof.
  induction s as [|a s IH]; simpl; [done|].
  destruct (rstrip p s) as [|b r] eqn:Hr.
  - destruct (p a) eqn:Ha; simpl; [done|]. by rewrite Ha.
  - change (rstrip p (String a (String b r)))
      with (match rstrip p (String b r) with
            | EmptyString => if p a then EmptyString else String a EmptyString
            | String _ _ as r0 => String a r0
            end).
    by rewrite IH.
Qed.

Lemma rstrip_keeps_head (p : ascii -> bool) (a : ascii) (s : string) :
  p a = false -> exists r, rstrip p (String a s) = String a r.
Proof.
  intros Ha. simpl. destruct (rstrip p s) as [|b r].
  - rewrite Ha. by eexists.
  - by eexists.
Qed.

Lemma strip_strip (p : ascii -> bool) (s : string) :
  strip p (strip p s) = strip p s.
Proof.
  unfold strip.
  destruct (lstrip_head p s) as [->|(a & r & -> & Ha)]; [done|].
  destruct (rstrip_keeps_head p a r Ha) as [r' Hr]. rewrite Hr.
  cbn [lstrip]. rewrite Ha, <- Hr. apply rstrip_rstrip.
Qed.

Lemma all_chars_rstrip (q p : ascii -> bool) (s : string) :
  all_chars q s = true -> all_chars q (rstrip p s) = true.
Proof.
  induction s as [|a s IH]; simpl; [done|].
  intros H. apply andb_prop in H as [Ha Hs]. specialize (IH Hs).
  destruct (rstrip p s) as [|b r].
  - destruct (p a); [done|]. unfold all_chars. simpl. by rewrite Ha.
  - change (all_chars q (String a (String b r)))
      with (q a && all_chars q (String b r)). by rewrite Ha, IH.
Qed.

Lemma split_pieces_clean (c : ascii) (s : string) :
  Forall (fun piece => all_chars (fun a => negb (Ascii.eqb a c)) piece = true)
    (split c s).
Proof.
  induction s as [|a s IH]; simpl.
  - by repeat constructor.
  - destruct (Ascii.eqb a c) eqn:Ha.
    + by constructor.
    + destruct (split c s) as [|h t].
      * constructor; [|constructor]. unfold all_chars. simpl. by rewrite Ha.
      * apply Forall_cons in IH as [Hh Ht]. constructor; [|done].
        unfold all_chars in *. simpl. by rewrite Ha.
Qed.

(** X18. The list of origins handed to the CORS middleware is never
    empty. Each origin in it is a non-empty text without a comma and
    without white space at either end. When the variable is not set, or
    when every piece between its commas is blank, the list is [["*"]]. *)
Theorem allowed_origins_clean (env : option string) :
  allowed_origins env <> []
  /\ (forall origin,
         origin ∈ allowed_origins env ->
         origin <> EmptyString
         /\ strip is_space origin = origin
         /\ all_chars (fun a => negb (Ascii.eqb a ",")) origin = true)
  /\ (env = None -> allowed_origins env = ["*"])
  /\ (Forall (fun piece => strip is_space piece = EmptyString) (ALLOWED_ORIGINS env) ->
      allowed_origins env = ["*"]).
Proof.
  unfold allowed_origins.
  set (kept := List.filter nonempty (strip is_space <$> ALLOWED_ORIGINS env)).
  assert (forall origin,
             origin ∈ kept ->
             origin <> EmptyString
             /\ strip is_space origin = origin
             /\ all_chars (fun a => negb (Ascii.eqb a ",")) origin = true) as Hkept.
  { intros origin [Hin Hne]%list_elem_of_In%filter_In.
    apply list_elem_of_In, list_elem_of_fmap in Hin as (piece & -> & Hp).
    split; [by destruct (strip is_space piece)|]. split; [apply strip_strip|].
    unfold strip. apply all_chars_rstrip, all_chars_lstrip.
    pose proof (split_pieces_clean "," (default "*" env)) as Hall.
    rewrite Forall_forall in Hall. by apply Hall. }
  split; [|split; [|split]].
  - by destruct kept.
  - destruct kept as [|o os] eqn:Hk; [|exact Hkept].
    intros origin ->%list_elem_of_singleton. done.
  - by intros ->.
  - intros Hblank. destruct kept as [|o os] eqn:Hk; [done|].
    assert (o ∈ kept) as Hin by (rewrite Hk; apply list_elem_of_here).
    unfold kept in Hin.
    apply list_elem_of_In, filter_In in Hin as [Hin Hne].
    apply list_elem_of_In, list_elem_of_fmap in Hin as (piece & -> & Hp).
    rewrite Forall_forall in Hblank. by rewrite (Hblank _ Hp) in Hne.
Qed.

Lemma allowed_origins_clean_witness :
  allowed_origins (Some " , ,") = ["*"]
  /\ allowed_origins (Some " https://a.test ,, http://b.test") 
     = ["https://a.test"; "http://b.test"].
Proof.
  split; [|reflexivity].
  apply (allowed_origins_clean (Some " , ,")). by repeat constructor.
Defined.
